(** * The resource-fetching layer of [src/util/ajax.js]

    A shallow embedding of the AJAX helpers (request construction, the mock
    registry, the completion handlers of [getJSON] and [getArrayBuffer],
    [getImage] and [getVideo]) together with the properties the
    specification states about them.

    Conventions of the embedding:
    - a JavaScript value is a [JsVal]; [undefined] in a typed slot is [None];
    - a JavaScript function that may throw, and that may call the callback it
      was given, is a computation in the monad [Js Ev]: it logs events of
      type [Ev] and ends in a value or in a thrown [JsError];
    - callbacks are passed as functions, exactly as the source passes them;
      the callback a property talks about is the recording callback [record];
    - what belongs to the host ([window.URL], anchors, the document location,
      object URLs) is a [Window] the development is parametric in;
    - a JavaScript object used as a dictionary (the mock registry) is a
      [gmap] keyed by strings; inherited properties are not modelled. *)

From Stdlib Require Import ZArith NArith Ascii String Lia.
From Stdlib.Strings Require Import Byte.
From stdpp Require Import base option list gmap strings pretty.

Set Warnings "-register-all".

Open Scope string_scope.
Open Scope list_scope.
Open Scope Z_scope.

(** ** JavaScript values, as far as the module inspects them *)

Module JS.

(** Numbers are the integers. [VObject str byteLength] stands for any other
    object, through the two things the module can observe of it: the string
    [ToString] gives for it and its [byteLength] when that is a number
    ([None] when it has none). A plain object is
    [VObject "[object Object]" None], the array [[5]] is [VObject "5" None],
    [new Uint8Array(0)] is [VObject "" (Some 0)]. Objects whose conversion to
    a string throws are left out. *)
Inductive JsVal : Type :=
| VUndefined
| VNull
| VBool (b : bool)
| VNum (n : Z)
| VStr (s : string)
| VArrayBuffer (bytes : list byte)
| VObject (str : string) (byteLength : option Z).

(** [ToBoolean]: what [if (v)] and [a && b] test. An [ArrayBuffer] is an
    object, hence truthy even when it holds no byte. *)
Definition truthy (v : JsVal) : bool :=
  match v with
  | VUndefined | VNull => false
  | VBool b => b
  | VNum n => negb (n =? 0)%Z
  | VStr s => negb (String.eqb s "")
  | VArrayBuffer _ | VObject _ _ => true
  end.

(** [ToString], applied by [JSON.parse] to its argument. *)
Definition ToString (v : JsVal) : string :=
  match v with
  | VUndefined => "undefined"
  | VNull => "null"
  | VBool true => "true"
  | VBool false => "false"
  | VNum n => pretty n
  | VStr s => s
  | VArrayBuffer _ => "[object ArrayBuffer]"
  | VObject str _ => str
  end.

(** The errors that travel through the module. [AJAXError] is the class of
    the source; the others are the host's. A message that was read from an
    uninitialised slot is [None]. *)
Inductive JsError : Type :=
| Error (message : option string)
| AJAXError (message : option string) (status : option Z) (url : string)
| SyntaxError
| TypeError (message : string).

(** Property read [v.byteLength]: throws on [undefined] and [null], is the
    length of an [ArrayBuffer], what the object carries on an object, and
    [undefined] on the other values. *)
Definition get_byteLength (v : JsVal) : JsError + option Z :=
  match v with
  | VUndefined => inl (TypeError "Cannot read property 'byteLength' of undefined")
  | VNull => inl (TypeError "Cannot read property 'byteLength' of null")
  | VArrayBuffer bytes => inr (Some (Z.of_nat (List.length bytes)))
  | VObject _ byteLength => inr byteLength
  | VBool _ | VNum _ | VStr _ => inr None
  end.

End JS.
Import JS.

(** ** Computations that log events and may throw *)

Record Js (Ev A : Type) : Type := MkJs {
  events : list Ev;
  outcome : JsError + A
}.
Arguments MkJs {Ev A} _ _.
Arguments events {Ev A} _.
Arguments outcome {Ev A} _.

Section JsMonad.
Context {Ev : Type}.

Definition ret {A} (a : A) : Js Ev A := MkJs [] (inr a).

Definition throw {A} (e : JsError) : Js Ev A := MkJs [] (inl e).

Definition emit (ev : Ev) : Js Ev unit := MkJs [ev] (inr tt).

Definition bind {A B} (m : Js Ev A) (f : A -> Js Ev B) : Js Ev B :=
  match outcome m with
  | inl e => MkJs (events m) (inl e)
  | inr a => MkJs (events m ++ events (f a)) (outcome (f a))
  end.

(** [try { m } catch (err) { h err }] *)
Definition try_catch {A} (m : Js Ev A) (h : JsError -> Js Ev A) : Js Ev A :=
  match outcome m with
  | inl e => MkJs (events m ++ events (h e)) (outcome (h e))
  | inr a => m
  end.

Definition lift_result {A} (r : JsError + A) : Js Ev A := MkJs [] r.
End JsMonad.

#[global] Instance Js_ret {Ev} : MRet (Js Ev) := fun _ a => ret a.
#[global] Instance Js_bind {Ev} : MBind (Js Ev) := fun _ _ f m => bind m f.

(** Events of one type embedded into another (a callback of the caller run
    inside an operation that has events of its own). *)
Definition map_events {Ev Ev' A} (f : Ev -> Ev') (m : Js Ev A) : Js Ev' A :=
  MkJs (f <$> events m) (outcome m).

(** What a callback of shape [(error, result)] was called with. [callback(err)]
    leaves the result [undefined]; [callback(null, x)] has no error. *)
Inductive Called (R : Type) : Type :=
| CallbackArgs (err : option JsError) (result : option R).
Arguments CallbackArgs {R} _ _.

Definition Callback (Ev R : Type) : Type :=
  option JsError -> option R -> Js Ev unit.

(** The callback that only records how it was called. *)
Definition record {R} : Callback (Called R) R :=
  fun err result => emit (CallbackArgs err result).

(** ** [JSON.parse] *)

Module JSON.

(** The value [JSON.parse] builds, kept as a syntax tree: a number keeps its
    lexeme, a string is its sequence of code units, an object keeps its
    members in source order. *)
Inductive t : Type :=
| JNull
| JBool (b : bool)
| JNumber (lexeme : string)
| JString (s : list N)
| JArray (items : list t)
| JObject (members : list (list N * t)).

Inductive Token : Type :=
| TLBrace | TRBrace | TLBracket | TRBracket | TColon | TComma
| TString (s : list N)
| TNumber (lexeme : string)
| TTrue | TFalse | TNull.

Inductive NumState : Type :=
| NMinus | NZero | NInt | NDot | NFrac | NExp | NExpSign | NExpDigits.

Inductive LexState : Type :=
| LIdle
| LStr (acc : list N)
| LEsc (acc : list N)
| LHex (acc : list N) (k : nat) (v : N)
| LNum (st : NumState) (lexeme : list ascii)
| LWord (rest : list ascii) (tok : Token).

Definition is_digit (c : ascii) : bool :=
  let n := N_of_ascii c in ((48 <=? n) && (n <=? 57))%N.

Definition hex_value (c : ascii) : option N :=
  let n := N_of_ascii c in
  if ((48 <=? n) && (n <=? 57))%N then Some (n - 48)%N
  else if ((97 <=? n) && (n <=? 102))%N then Some (n - 87)%N
  else if ((65 <=? n) && (n <=? 70))%N then Some (n - 55)%N
  else None.

Definition is_exp (c : ascii) : bool :=
  match c with "e"%char | "E"%char => true | _ => false end.

Definition num_accepting (st : NumState) : bool :=
  match st with
  | NZero | NInt | NFrac | NExpDigits => true
  | NMinus | NDot | NExp | NExpSign => false
  end.

Definition num_step (st : NumState) (c : ascii) : option NumState :=
  match st with
  | NMinus =>
      if Ascii.eqb c "0" then Some NZero
      else if is_digit c then Some NInt else None
  | NZero =>
      if Ascii.eqb c "." then Some NDot
      else if is_exp c then Some NExp else None
  | NInt =>
      if is_digit c then Some NInt
      else if Ascii.eqb c "." then Some NDot
      else if is_exp c then Some NExp else None
  | NDot => if is_digit c then Some NFrac else None
  | NFrac =>
      if is_digit c then Some NFrac
      else if is_exp c then Some NExp else None
  | NExp =>
      if is_digit c then Some NExpDigits
      else match c with
           | "+"%char | "-"%char => Some NExpSign
           | _ => None
           end
  | NExpSign => if is_digit c then Some NExpDigits else None
  | NExpDigits => if is_digit c then Some NExpDigits else None
  end.

Definition number_token (lexeme : list ascii) : Token :=
  TNumber (string_of_list_ascii (rev lexeme)).

(** A character met between two tokens. *)
Definition lex_idle (c : ascii) : option (LexState * list Token) :=
  match c with
  | " "%char | "009"%char | "010"%char | "013"%char => Some (LIdle, [])
  | "{"%char => Some (LIdle, [TLBrace])
  | "}"%char => Some (LIdle, [TRBrace])
  | "["%char => Some (LIdle, [TLBracket])
  | "]"%char => Some (LIdle, [TRBracket])
  | ":"%char => Some (LIdle, [TColon])
  | ","%char => Some (LIdle, [TComma])
  | "034"%char => Some (LStr [], [])
  | "-"%char => Some (LNum NMinus [c], [])
  | "0"%char => Some (LNum NZero [c], [])
  | "t"%char => Some (LWord (list_ascii_of_string "rue") TTrue, [])
  | "f"%char => Some (LWord (list_ascii_of_string "alse") TFalse, [])
  | "n"%char => Some (LWord (list_ascii_of_string "ull") TNull, [])
  | _ => if is_digit c then Some (LNum NInt [c], []) else None
  end.

Definition lex_char (st : LexState) (c : ascii) : option (LexState * list Token) :=
  match st with
  | LIdle => lex_idle c
  | LStr acc =>
      match c with
      | "034"%char => Some (LIdle, [TString (rev acc)])
      | "\"%char => Some (LEsc acc, [])
      | _ => if (N_of_ascii c <? 32)%N then None
             else Some (LStr (N_of_ascii c :: acc), [])
      end
  | LEsc acc =>
      match c with
      | "034"%char => Some (LStr (34%N :: acc), [])
      | "\"%char => Some (LStr (92%N :: acc), [])
      | "/"%char => Some (LStr (47%N :: acc), [])
      | "b"%char => Some (LStr (8%N :: acc), [])
      | "f"%char => Some (LStr (12%N :: acc), [])
      | "n"%char => Some (LStr (10%N :: acc), [])
      | "r"%char => Some (LStr (13%N :: acc), [])
      | "t"%char => Some (LStr (9%N :: acc), [])
      | "u"%char => Some (LHex acc 0 0%N, [])
      | _ => None
      end
  | LHex acc k v =>
      match hex_value c with
      | None => None
      | Some h =>
          let v' := (16 * v + h)%N in
          if (k =? 3)%nat then Some (LStr (v' :: acc), [])
          else Some (LHex acc (S k) v', [])
      end
  | LNum ns lexeme =>
      match num_step ns c with
      | Some ns' => Some (LNum ns' (c :: lexeme), [])
      | None =>
          if num_accepting ns then
            match lex_idle c with
            | Some (st', toks) => Some (st', number_token lexeme :: toks)
            | None => None
            end
          else None
      end
  | LWord rest tok =>
      match rest with
      | [] => None
      | r :: rest' =>
          if Ascii.eqb c r then
            match rest' with
            | [] => Some (LIdle, [tok])
            | _ => Some (LWord rest' tok, [])
            end
          else None
      end
  end.

Definition lex_end (st : LexState) : option (list Token) :=
  match st with
  | LIdle => Some []
  | LNum ns lexeme => if num_accepting ns then Some [number_token lexeme] else None
  | _ => None
  end.

Fixpoint lex (st : LexState) (s : list ascii) : option (list Token) :=
  match s with
  | [] => lex_end st
  | c :: s' =>
      match lex_char st c with
      | None => None
      | Some (st', toks) =>
          match lex st' s' with
          | None => None
          | Some rest => Some (toks ++ rest)
          end
      end
  end.

(** The containers that are open around the position of the parser. *)
Inductive Frame : Type :=
| InArray (items : list t)
| InObject (members : list (list N * t)) (key : list N).

Inductive PState : Type :=
| SValue (stk : list Frame)
| SArrFirst (stk : list Frame)
| SArrNext (items : list t) (stk : list Frame)
| SObjFirst (stk : list Frame)
| SObjKey (members : list (list N * t)) (stk : list Frame)
| SObjColon (members : list (list N * t)) (key : list N) (stk : list Frame)
| SObjNext (members : list (list N * t)) (stk : list Frame)
| SDone (v : t).

(** A value is complete: it goes into the innermost open container. *)
Definition deliver (v : t) (stk : list Frame) : PState :=
  match stk with
  | [] => SDone v
  | InArray items :: stk' => SArrNext (v :: items) stk'
  | InObject members key :: stk' => SObjNext ((key, v) :: members) stk'
  end.

Definition start_value (tok : Token) (stk : list Frame) : option PState :=
  match tok with
  | TLBracket => Some (SArrFirst stk)
  | TLBrace => Some (SObjFirst stk)
  | TString s => Some (deliver (JString s) stk)
  | TNumber l => Some (deliver (JNumber l) stk)
  | TTrue => Some (deliver (JBool true) stk)
  | TFalse => Some (deliver (JBool false) stk)
  | TNull => Some (deliver JNull stk)
  | TRBrace | TRBracket | TColon | TComma => None
  end.

Definition step (st : PState) (tok : Token) : option PState :=
  match st with
  | SValue stk => start_value tok stk
  | SArrFirst stk =>
      match tok with
      | TRBracket => Some (deliver (JArray []) stk)
      | _ => start_value tok (InArray [] :: stk)
      end
  | SArrNext items stk =>
      match tok with
      | TComma => Some (SValue (InArray items :: stk))
      | TRBracket => Some (deliver (JArray (rev items)) stk)
      | _ => None
      end
  | SObjFirst stk =>
      match tok with
      | TRBrace => Some (deliver (JObject []) stk)
      | TString k => Some (SObjColon [] k stk)
      | _ => None
      end
  | SObjKey members stk =>
      match tok with
      | TString k => Some (SObjColon members k stk)
      | _ => None
      end
  | SObjColon members k stk =>
      match tok with
      | TColon => Some (SValue (InObject members k :: stk))
      | _ => None
      end
  | SObjNext members stk =>
      match tok with
      | TComma => Some (SObjKey members stk)
      | TRBrace => Some (deliver (JObject (rev members)) stk)
      | _ => None
      end
  | SDone _ => None
  end.

Fixpoint run (st : PState) (toks : list Token) : option t :=
  match toks with
  | [] => match st with SDone v => Some v | _ => None end
  | tok :: toks' =>
      match step st tok with
      | None => None
      | Some st' => run st' toks'
      end
  end.

(** [JSON.parse(text)]: [None] stands for the [SyntaxError] it throws. *)
Definition parse_text (text : string) : option t :=
  match lex LIdle (list_ascii_of_string text) with
  | None => None
  | Some toks => run (SValue []) toks
  end.

End JSON.

(** [JSON.parse(v)] as a computation: the argument goes through [ToString]. *)
Definition JSON_parse {Ev} (v : JsVal) : Js Ev JSON.t :=
  match JSON.parse_text (ToString v) with
  | Some j => ret j
  | None => throw SyntaxError
  end.

(** ** The host: [window] *)

(** The decomposition of a URL that [URL] objects, anchors and the document
    location expose. *)
Record URLRecord : Type := {
  protocol : string;
  hostname : string;
  port : string;
  pathname : string;
  search : string;
  hash : string
}.

(** [u.host]: the hostname, followed by [:port] when there is a port. *)
Definition host (u : URLRecord) : string :=
  if String.eqb (port u) "" then hostname u
  else (hostname u ++ ":" ++ port u)%string.

(** What the module takes from [require('./window')]:
    - [URL s] is [new window.URL(s)], [None] when the constructor throws;
    - [anchor s] is what an [<a>] element reads back after [a.href = s];
    - [location] is [window.document.location];
    - [createObjectURL data] is the object URL the host hands out for the
      PNG blob built from [data]. *)
Record Window : Type := {
  URL : string -> option URLRecord;
  anchor : string -> URLRecord;
  location : URLRecord;
  createObjectURL : JsVal -> string
}.

(** ** The handles *)

(** What a completion handler can read from the handle [xhr] it closes over.
    [getResponseHeader] is [None] on a handle that has no such method. *)
Record XhrView : Type := {
  status : option Z;
  statusText : option string;
  response : JsVal;
  getResponseHeader : option (string -> option string)
}.

Definition Handler (Ev : Type) : Type := XhrView -> Js Ev unit.

(** [class MockXMLHttpRequest]. Assignments to properties the class does not
    declare ([responseType], [onerror]) create own properties that nothing
    reads; they are not kept. *)
Record MockXMLHttpRequest (Ev : Type) : Type := {
  _url : string;
  _response : JsVal;
  _withCredentials : option bool;
  _onloadCallback : option (Handler Ev);
  _statusText : option string;
  _status : option Z
}.
Arguments _url {Ev} _.
Arguments _response {Ev} _.
Arguments _withCredentials {Ev} _.
Arguments _onloadCallback {Ev} _.
Arguments _statusText {Ev} _.
Arguments _status {Ev} _.

(** [window.XMLHttpRequest], as a recorder of what the module asked of it:
    the calls of [open], the headers set, the flags and handlers installed
    and the number of calls of [send]. The exchange itself is the host's. *)
Record XMLHttpRequest (Ev : Type) : Type := {
  opened : list (string * string * bool);
  requestHeaders : list (string * string);
  withCredentials : bool;
  responseType : string;
  onload : option (Handler Ev);
  onerror : option (Handler Ev);
  sent : nat
}.
Arguments opened {Ev} _.
Arguments requestHeaders {Ev} _.
Arguments withCredentials {Ev} _.
Arguments responseType {Ev} _.
Arguments onload {Ev} _.
Arguments onerror {Ev} _.
Arguments sent {Ev} _.

Inductive Xhr (Ev : Type) : Type :=
| XMock (m : MockXMLHttpRequest Ev)
| XReal (x : XMLHttpRequest Ev).
Arguments XMock {Ev} _.
Arguments XReal {Ev} _.

(** What the host delivers when an exchange on the network completes. *)
Record TransportResult : Type := {
  tr_status : Z;
  tr_statusText : string;
  tr_response : JsVal;
  tr_headers : string -> option string
}.

Section Handles.
Context {Ev : Type}.

(** [new MockXMLHttpRequest(url, response)] *)
Definition new_MockXMLHttpRequest (url : string) (resp : JsVal)
  : MockXMLHttpRequest Ev :=
  {| _url := url; _response := resp; _withCredentials := None;
     _onloadCallback := None; _statusText := None; _status := None |}.

(** [new window.XMLHttpRequest()] *)
Definition new_XMLHttpRequest : XMLHttpRequest Ev :=
  {| opened := []; requestHeaders := []; withCredentials := false;
     responseType := ""; onload := None; onerror := None; sent := 0%nat |}.

(** The getters [status], [statusText] and [response] of the mock. *)
Definition mock_view (m : MockXMLHttpRequest Ev) : XhrView :=
  {| status := _status m; statusText := _statusText m;
     response := _response m; getResponseHeader := None |}.

Definition real_view (r : TransportResult) : XhrView :=
  {| status := Some (tr_status r); statusText := Some (tr_statusText r);
     response := tr_response r; getResponseHeader := Some (tr_headers r) |}.

(** [xhr.open(method, url, async)]: empty in the mock. *)
Definition xhr_open (xhr : Xhr Ev) (method url : string) (async : bool) : Xhr Ev :=
  match xhr with
  | XMock m => XMock m
  | XReal x =>
      XReal {| opened := opened x ++ [(method, url, async)];
               requestHeaders := requestHeaders x;
               withCredentials := withCredentials x;
               responseType := responseType x;
               onload := onload x; onerror := onerror x; sent := sent x |}
  end.

(** [xhr.setRequestHeader(k, v)]: empty in the mock. *)
Definition xhr_setRequestHeader (xhr : Xhr Ev) (k v : string) : Xhr Ev :=
  match xhr with
  | XMock m => XMock m
  | XReal x =>
      XReal {| opened := opened x;
               requestHeaders := requestHeaders x ++ [(k, v)];
               withCredentials := withCredentials x;
               responseType := responseType x;
               onload := onload x; onerror := onerror x; sent := sent x |}
  end.

(** [xhr.withCredentials = b]: the setter of the mock stores it. *)
Definition xhr_set_withCredentials (xhr : Xhr Ev) (b : bool) : Xhr Ev :=
  match xhr with
  | XMock m =>
      XMock {| _url := _url m; _response := _response m;
               _withCredentials := Some b;
               _onloadCallback := _onloadCallback m;
               _statusText := _statusText m; _status := _status m |}
  | XReal x =>
      XReal {| opened := opened x; requestHeaders := requestHeaders x;
               withCredentials := b;
               responseType := responseType x;
               onload := onload x; onerror := onerror x; sent := sent x |}
  end.

(** [xhr.responseType = t] *)
Definition xhr_set_responseType (xhr : Xhr Ev) (t : string) : Xhr Ev :=
  match xhr with
  | XMock m => XMock m
  | XReal x =>
      XReal {| opened := opened x; requestHeaders := requestHeaders x;
               withCredentials := withCredentials x;
               responseType := t;
               onload := onload x; onerror := onerror x; sent := sent x |}
  end.

(** [xhr.onerror = h] *)
Definition xhr_set_onerror (xhr : Xhr Ev) (h : Handler Ev) : Xhr Ev :=
  match xhr with
  | XMock m => XMock m
  | XReal x =>
      XReal {| opened := opened x; requestHeaders := requestHeaders x;
               withCredentials := withCredentials x;
               responseType := responseType x;
               onload := onload x; onerror := Some h; sent := sent x |}
  end.

(** [xhr.onload = h]: the setter of the mock keeps it in [_onloadCallback]. *)
Definition xhr_set_onload (xhr : Xhr Ev) (h : Handler Ev) : Xhr Ev :=
  match xhr with
  | XMock m =>
      XMock {| _url := _url m; _response := _response m;
               _withCredentials := _withCredentials m;
               _onloadCallback := Some h;
               _statusText := _statusText m; _status := _status m |}
  | XReal x =>
      XReal {| opened := opened x; requestHeaders := requestHeaders x;
               withCredentials := withCredentials x;
               responseType := responseType x;
               onload := Some h; onerror := onerror x; sent := sent x |}
  end.

(** [MockXMLHttpRequest.send]: sets the status from the canned body and
    calls the load handler at once, on the mock itself. *)
Definition MockXMLHttpRequest_send (m : MockXMLHttpRequest Ev)
  : Js Ev (MockXMLHttpRequest Ev) :=
  let m' :=
    if truthy (_response m) then
      {| _url := _url m; _response := _response m;
         _withCredentials := _withCredentials m;
         _onloadCallback := _onloadCallback m;
         _statusText := _statusText m; _status := Some 200 |}
    else
      {| _url := _url m; _response := _response m;
         _withCredentials := _withCredentials m;
         _onloadCallback := _onloadCallback m;
         _statusText := Some (_url m ++ " mock data is error!")%string;
         _status := Some 404 |} in
  match _onloadCallback m' with
  | None => throw (TypeError "Cannot read property 'call' of undefined")
  | Some onload_ => _ ← onload_ (mock_view m'); mret m'
  end.

(** [xhr.send()]: on the network handle the exchange only starts; its
    completion comes later, through [fire_load] or [fire_error]. *)
Definition xhr_send (xhr : Xhr Ev) : Js Ev (Xhr Ev) :=
  match xhr with
  | XMock m => m' ← MockXMLHttpRequest_send m; mret (XMock m')
  | XReal x =>
      mret (XReal {| opened := opened x; requestHeaders := requestHeaders x;
                     withCredentials := withCredentials x;
                     responseType := responseType x;
                     onload := onload x; onerror := onerror x;
                     sent := S (sent x) |})
  end.

(** The host completes the exchange: the load handler runs. *)
Definition fire_load (x : XMLHttpRequest Ev) (r : TransportResult) : Js Ev unit :=
  match onload x with
  | Some h => h (real_view r)
  | None => mret tt
  end.

(** The host could not complete the exchange: the error handler runs. *)
Definition fire_error (x : XMLHttpRequest Ev) (r : TransportResult) : Js Ev unit :=
  match onerror x with
  | Some h => h (real_view r)
  | None => mret tt
  end.

(** The call [xhr.getResponseHeader(name)]. *)
Definition call_getResponseHeader (xhr : XhrView) (name : string)
  : Js Ev (option string) :=
  match getResponseHeader xhr with
  | Some f => mret (f name)
  | None => throw (TypeError "xhr.getResponseHeader is not a function")
  end.
End Handles.

(** ** The module [ajax.js] *)

(** [type RequestParameters]. The optional fields are [None] when absent;
    [headers] keeps the enumeration order of the object. *)
Record RequestParameters : Type := {
  url : string;
  headers : option (list (string * string));
  credentials : option string;
  collectResourceTiming : option bool
}.

(** The module-level variable [mockRequest]: host name, then path name, then
    the canned body. *)
Record ModuleState : Type := {
  mockRequest : gmap string (gmap string JsVal)
}.

(** [let mockRequest = {}] *)
Definition initialState : ModuleState := {| mockRequest := ∅ |}.

(** [exports.setMockRequest] *)
Definition setMockRequest (mock : gmap string (gmap string JsVal))
    (st : ModuleState) : ModuleState :=
  {| mockRequest := mock |}.

(** The value of [hostMock && hostMock[pathName]]. *)
Definition mock_body (hostMock : option (gmap string JsVal)) (pathName : string)
  : JsVal :=
  match hostMock with
  | None => VUndefined
  | Some paths => default VUndefined (paths !! pathName)
  end.

(** Comparisons of [xhr.status] with a number; [undefined] compares false. *)
Definition status_ge (s : option Z) (n : Z) : bool :=
  match s with Some v => n <=? v | None => false end.
Definition status_lt (s : option Z) (n : Z) : bool :=
  match s with Some v => v <? n | None => false end.
Definition status_is (s : option Z) (n : Z) : bool :=
  match s with Some v => v =? n | None => false end.

(** The test [imgData.data.byteLength ? ... : ...]: a number other than 0. *)
Definition byteLength_truthy (len : option Z) : bool :=
  match len with
  | Some n => negb (n =? 0)
  | None => false
  end.

(** The test [xhr.status >= 200 && xhr.status < 300], under a name. *)
Definition success_status (s : option Z) : bool :=
  status_ge s 200 && status_lt s 300.

(** The result [getArrayBuffer] hands to its callback. *)
Record BufferResult : Type := {
  data : JsVal;
  cacheControl : option string;
  expires : option string
}.

(** What can be read from an image element: its source and the two
    properties [getImage] adds to it. This is what the callback of
    [getImage] is given and what the load handler of the image reads. *)
Record HTMLImageElement : Type := {
  img_src : string;
  img_cacheControl : option string;
  img_expires : option string
}.

(** The image element as the host holds it: what can be read from it,
    together with the handler assigned to [img.onload]. *)
Record Image (Ev : Type) : Type := {
  img_onload : option (HTMLImageElement -> Js Ev unit);
  img_element : HTMLImageElement
}.
Arguments img_onload {Ev} _.
Arguments img_element {Ev} _.

Record HTMLSourceElement : Type := { src : string }.

Record HTMLVideoElement : Type := {
  crossOrigin : option string;
  children : list HTMLSourceElement
}.

(** What [getImage] does besides calling its callback: it asks the host
    for an object URL for a blob ([URL.createObjectURL], with the data the
    blob was built from and the URL the host gave), it hands an image to
    the host to load (the assignment of [img.src], with the image as it is
    then, its load handler included), and it revokes an object URL. *)
Inductive ImageEvent (Ev : Type) : Type :=
| FromCallback (e : Ev)
| CreateObjectURL (blob : JsVal) (u : string)
| ImageLoading (img : Image (ImageEvent Ev))
| RevokeObjectURL (u : string).
Arguments FromCallback {Ev} _.
Arguments CreateObjectURL {Ev} _ _.
Arguments ImageLoading {Ev} _.
Arguments RevokeObjectURL {Ev} _.

(** The host has loaded the image: its load handler runs, on the image. *)
Definition fire_image_load {Ev} (img : Image Ev) : Js Ev unit :=
  match img_onload img with
  | Some h => h (img_element img)
  | None => MkJs [] (inr tt)
  end.

Definition transparentPngUrl : string :=
  "data:image/png;base64,iVBORw0KGgoAAAANSUhEUgAAAAEAAAABCAYAAAAfFcSJAAAAC0lEQVQYV2NgAAIAAAUAAarVyFEAAAAASUVORK5CYII=".

Section Ajax.
Context (window : Window).

Section Requests.
Context {Ev : Type}.

(** [function makeRequest(requestParameters)] *)
Definition makeRequest (st : ModuleState) (requestParameters : RequestParameters)
  : Js Ev (Xhr Ev) :=
  match URL window (url requestParameters) with
  | None => throw (TypeError "Invalid URL")
  | Some u =>
      let hostName := hostname u in
      let pathName := pathname u in
      let hostMock := mockRequest st !! hostName in
      let xhr :=
        if truthy (mock_body hostMock pathName) then
          XMock (new_MockXMLHttpRequest (url requestParameters)
                   (mock_body hostMock pathName))
        else XReal new_XMLHttpRequest in
      let xhr := xhr_open xhr "GET" (url requestParameters) true in
      let xhr :=
        fold_left (fun x kv => xhr_setRequestHeader x kv.1 kv.2)
          (default [] (headers requestParameters)) xhr in
      let xhr :=
        xhr_set_withCredentials xhr
          (bool_decide (credentials requestParameters = Some "include")) in
      mret xhr
  end.

(** The [onerror] handler of [getJSON] and of [getArrayBuffer]. *)
Definition onerror_handler {R} (callback : Callback Ev R) : Handler Ev :=
  fun xhr => callback (Some (Error (statusText xhr))) None.

(** The [onload] handler of [getJSON]. The [inl] of the [try] block is
    the [return] inside [catch]. *)
Definition getJSON_onload (requestParameters : RequestParameters)
    (callback : Callback Ev JSON.t) : Handler Ev :=
  fun xhr =>
    if status_ge (status xhr) 200 && status_lt (status xhr) 300
       && truthy (response xhr) then
      r ← try_catch
            (d ← JSON_parse (response xhr); mret (inr d))
            (fun err => _ ← callback (Some err) None; mret (inl tt));
      match r with
      | inl _ => mret tt
      | inr d => callback None (Some d)
      end
    else
      callback (Some (AJAXError (statusText xhr) (status xhr)
                        (url requestParameters))) None.

(** [exports.getJSON] *)
Definition getJSON (st : ModuleState) (requestParameters : RequestParameters)
    (callback : Callback Ev JSON.t) : Js Ev (Xhr Ev) :=
  xhr ← makeRequest st requestParameters;
  let xhr := xhr_setRequestHeader xhr "Accept" "application/json" in
  let xhr := xhr_set_onerror xhr (onerror_handler callback) in
  let xhr := xhr_set_onload xhr (getJSON_onload requestParameters callback) in
  xhr_send xhr.

(** The [onload] handler of [getArrayBuffer]. *)
Definition getArrayBuffer_onload (requestParameters : RequestParameters)
    (callback : Callback Ev BufferResult) : Handler Ev :=
  fun xhr =>
    let response_ := response xhr in
    byteLength ← lift_result (get_byteLength response_);
    if bool_decide (byteLength = Some 0) && status_is (status xhr) 200 then
      callback (Some (Error (Some "http status 200 returned without content.")))
        None
    else if status_ge (status xhr) 200 && status_lt (status xhr) 300
            && truthy (response xhr) then
      cc ← call_getResponseHeader xhr "Cache-Control";
      ex ← call_getResponseHeader xhr "Expires";
      callback None
        (Some {| data := response_; cacheControl := cc; expires := ex |})
    else
      callback (Some (AJAXError (statusText xhr) (status xhr)
                        (url requestParameters))) None.

(** [exports.getArrayBuffer] *)
Definition getArrayBuffer (st : ModuleState)
    (requestParameters : RequestParameters)
    (callback : Callback Ev BufferResult) : Js Ev (Xhr Ev) :=
  xhr ← makeRequest st requestParameters;
  let xhr := xhr_set_responseType xhr "arraybuffer" in
  let xhr := xhr_set_onerror xhr (onerror_handler callback) in
  let xhr := xhr_set_onload xhr (getArrayBuffer_onload requestParameters callback) in
  xhr_send xhr.
End Requests.

(** [function sameOrigin(url)] *)
Definition sameOrigin (u : string) : bool :=
  let a := anchor window u in
  String.eqb (protocol a) (protocol (location window))
  && String.eqb (host a) (host (location window)).

Section Media.
Context {Ev : Type}.

(** The handler [getImage] assigns to [img.onload]. *)
Definition getImage_img_onload (callback : Callback Ev HTMLImageElement)
    (img : HTMLImageElement) : Js (ImageEvent Ev) unit :=
  _ ← map_events FromCallback (callback None (Some img));
  emit (RevokeObjectURL (img_src img)).

(** [URL.createObjectURL(blob)], for the PNG blob built from [d]. *)
Definition URL_createObjectURL (d : JsVal) : Js (ImageEvent Ev) string :=
  _ ← emit (CreateObjectURL d (createObjectURL window d));
  mret (createObjectURL window d).

(** The callback [getImage] gives to [getArrayBuffer]. In the success
    branch the load handler is assigned first, then the source is chosen
    (the object URL is only asked for when the data has bytes), and the
    assignment of [img.src] hands the image to the host. *)
Definition getImage_callback (callback : Callback Ev HTMLImageElement)
  : Callback (ImageEvent Ev) BufferResult :=
  fun err imgData =>
    match err with
    | Some e => map_events FromCallback (callback (Some e) None)
    | None =>
        match imgData with
        | Some d =>
            let onload_ := getImage_img_onload callback in
            byteLength ← lift_result (get_byteLength (data d));
            src_ ← (if byteLength_truthy byteLength
                    then URL_createObjectURL (data d)
                    else mret transparentPngUrl);
            emit (ImageLoading
                    {| img_onload := Some onload_;
                       img_element :=
                         {| img_src := src_;
                            img_cacheControl := cacheControl d;
                            img_expires := expires d |} |})
        | None => mret tt
        end
    end.

(** [exports.getImage] *)
Definition getImage (st : ModuleState) (requestParameters : RequestParameters)
    (callback : Callback Ev HTMLImageElement)
  : Js (ImageEvent Ev) (Xhr (ImageEvent Ev)) :=
  getArrayBuffer st requestParameters (getImage_callback callback).
End Media.

(** [window.document.createElement('video')] *)
Definition new_video : HTMLVideoElement :=
  {| crossOrigin := None; children := [] |}.

(** [video.appendChild(s)] *)
Definition appendChild (video : HTMLVideoElement) (s : HTMLSourceElement)
  : HTMLVideoElement :=
  {| crossOrigin := crossOrigin video; children := children video ++ [s] |}.

(** One turn of the loop of [getVideo], on [urls[i]]. *)
Definition getVideo_body (video : HTMLVideoElement) (u : string)
  : HTMLVideoElement :=
  let video :=
    if negb (sameOrigin u)
    then {| crossOrigin := Some "Anonymous"; children := children video |}
    else video in
  let s := {| src := u |} in
  appendChild video s.

(** [exports.getVideo]: the element it returns. The callback takes no part
    in building it: it is only installed as the [onloadstart] handler of
    the element, which is [getVideo_onloadstart] below. *)
Definition getVideo (urls : list string) : HTMLVideoElement :=
  fold_left getVideo_body urls new_video.

(** The [video.onloadstart] handler of [getVideo]. *)
Definition getVideo_onloadstart {Ev} (callback : Callback Ev HTMLVideoElement)
    (video : HTMLVideoElement) : Js Ev unit :=
  callback None (Some video).
End Ajax.

(** ** A concrete host, for the examples

    [simple_URL] reads [scheme://hostname[:port][/path][?query][#fragment]]
    and nothing else: no lower-casing, no percent-encoding, no dot segments.
    On the URLs of the examples below it agrees with [window.URL]. *)

Fixpoint split_at (c : ascii) (s : string) : string * option string :=
  match s with
  | EmptyString => ("", None)
  | String a rest =>
      if Ascii.eqb a c then ("", Some rest)
      else let (before, after) := split_at c rest in (String a before, after)
  end.

Definition with_prefix (p : string) (o : option string) : string :=
  match o with
  | Some s => if String.eqb s "" then "" else (p ++ s)%string
  | None => ""
  end.

Definition default_port (scheme p : string) : bool :=
  (String.eqb scheme "http" && String.eqb p "80")
  || (String.eqb scheme "https" && String.eqb p "443").

Definition simple_URL (s : string) : option URLRecord :=
  let (s1, fragment) := split_at "#" s in
  let (s2, query) := split_at "?" s1 in
  match split_at ":" s2 with
  | (scheme, Some (String "/" (String "/" rest))) =>
      if String.eqb scheme "" then None
      else
        let (authority, path) := split_at "/" rest in
        let (h, p) := split_at ":" authority in
        let p := default "" p in
        Some {| protocol := (scheme ++ ":")%string;
                hostname := h;
                port := if default_port scheme p then "" else p;
                pathname := ("/" ++ default "" path)%string;
                search := with_prefix "?" query;
                hash := with_prefix "#" fragment |}
  | _ => None
  end.

(** An anchor resolves what is not an absolute URL against the document. *)
Definition simple_anchor (base : URLRecord) (s : string) : URLRecord :=
  match simple_URL s with
  | Some u => u
  | None =>
      {| protocol := protocol base; hostname := hostname base;
         port := port base; pathname := s; search := ""; hash := "" |}
  end.

(** A document at [http://example.com/]. *)
Definition exampleLocation : URLRecord :=
  {| protocol := "http:"; hostname := "example.com"; port := "";
     pathname := "/"; search := ""; hash := "" |}.

Definition exampleWindow : Window :=
  {| URL := simple_URL;
     anchor := simple_anchor exampleLocation;
     location := exampleLocation;
     createObjectURL := fun _ => "blob:http://example.com/0" |}.

Definition params (u : string) : RequestParameters :=
  {| url := u; headers := None; credentials := None;
     collectResourceTiming := None |}.

(** A registry with one body, of every kind the examples need. *)
Definition examplePaths : gmap string JsVal :=
  {[ "/style.json" := VStr "[1, 2.5, true, null]";
     "/broken.json" := VStr "{";
     "/empty.json" := VStr "";
     "/null.json" := VNull;
     "/tile.txt" := VStr "abc";
     "/tile.pbf" := VArrayBuffer [x01; x02; x03];
     "/empty.pbf" := VArrayBuffer [] ]}.

Definition exampleRegistry : gmap string (gmap string JsVal) :=
  {[ "example.com" := examplePaths ]}.

Definition exampleState : ModuleState :=
  setMockRequest exampleRegistry initialState.

(** What the handle resolved to: the canned body, or the network. *)
Definition mock_entry {Ev} (xhr : Xhr Ev) : option JsVal :=
  match xhr with
  | XMock m => Some (_response m)
  | XReal _ => None
  end.

(** The credentials flag of the handle. *)
Definition xhr_withCredentials {Ev} (xhr : Xhr Ev) : option bool :=
  match xhr with
  | XMock m => _withCredentials m
  | XReal x => Some (withCredentials x)
  end.

(** ** Reading the fallback image

    [transparentPngUrl] is a [data:] URL: a PNG file in base64. The header
    of the file says what image it is. *)

Definition b64_value (c : ascii) : option N :=
  let n := N_of_ascii c in
  if ((65 <=? n) && (n <=? 90))%N then Some (n - 65)%N
  else if ((97 <=? n) && (n <=? 122))%N then Some (n - 71)%N
  else if ((48 <=? n) && (n <=? 57))%N then Some (n + 4)%N
  else match c with
       | "+"%char => Some 62%N
       | "/"%char => Some 63%N
       | _ => None
       end.

(** Four characters give three bytes; [=] pads the last group. *)
Fixpoint b64_decode (s : list ascii) : option (list N) :=
  match s with
  | [] => Some []
  | a :: b :: c :: d :: rest =>
      match b64_value a, b64_value b with
      | Some va, Some vb =>
          let b1 := (va * 4 + vb / 16)%N in
          match c, d, rest with
          | "="%char, "="%char, [] => Some [b1]
          | _, _, _ =>
              match b64_value c with
              | None => None
              | Some vc =>
                  let b2 := ((vb mod 16) * 16 + vc / 4)%N in
                  match d, rest with
                  | "="%char, [] => Some [b1; b2]
                  | _, _ =>
                      match b64_value d, b64_decode rest with
                      | Some vd, Some bytes =>
                          Some (b1 :: b2 :: ((vc mod 4) * 64 + vd)%N :: bytes)
                      | _, _ => None
                      end
                  end
              end
          end
      | _, _ => None
      end
  | _ => None
  end.

Fixpoint strip_prefix (p s : list ascii) : option (list ascii) :=
  match p, s with
  | [], _ => Some s
  | a :: p', b :: s' => if Ascii.eqb a b then strip_prefix p' s' else None
  | _ :: _, [] => None
  end.

(** The bytes of a [data:image/png;base64,] URL. *)
Definition png_bytes (u : string) : option (list N) :=
  match strip_prefix (list_ascii_of_string "data:image/png;base64,")
          (list_ascii_of_string u) with
  | Some payload => b64_decode payload
  | None => None
  end.

(** Width, height, bit depth and colour type, read from the [IHDR] chunk
    that follows the signature of a PNG file. *)
Definition png_header (bytes : list N) : option (N * N * N * N) :=
  match bytes with
  | 137 :: 80 :: 78 :: 71 :: 13 :: 10 :: 26 :: 10
    :: 0 :: 0 :: 0 :: 13 :: 73 :: 72 :: 68 :: 82
    :: w3 :: w2 :: w1 :: w0 :: h3 :: h2 :: h1 :: h0 :: depth :: colour :: _ =>
      Some (((w3 * 256 + w2) * 256 + w1) * 256 + w0,
            ((h3 * 256 + h2) * 256 + h1) * 256 + h0, depth, colour)
  | _ => None
  end%N.

(** ** [class AJAXError]: how it prints

    A template literal prints [undefined] for a slot that was never set and
    a number in decimal. [this.name] is the name of the class. *)

Definition template_of_string (o : option string) : string :=
  default "undefined" o.

Definition template_of_number (o : option Z) : string :=
  match o with
  | Some n => pretty n
  | None => "undefined"
  end.

(** [AJAXError.prototype.toString] *)
Definition AJAXError_toString (message : option string) (status_ : option Z)
    (url_ : string) : string :=
  ("AJAXError" ++ ": " ++ template_of_string message
   ++ " (" ++ template_of_number status_ ++ "): " ++ url_)%string.

(** The arguments [getArrayBuffer]'s load handler gives its callback on a
    network exchange that ended with the status [s], the status line [text]
    and a buffer of [bytes], read off the two tests of the handler. *)
Definition buffer_outcome (rp : RequestParameters) (r : TransportResult)
    (bytes : list byte) : Called BufferResult :=
  if match bytes with [] => true | _ :: _ => false end && (tr_status r =? 200)
  then CallbackArgs
         (Some (Error (Some "http status 200 returned without content."))) None
  else if (200 <=? tr_status r) && (tr_status r <? 300)
  then CallbackArgs None
         (Some {| data := VArrayBuffer bytes;
                  cacheControl := tr_headers r "Cache-Control";
                  expires := tr_headers r "Expires" |})
  else CallbackArgs
         (Some (AJAXError (Some (tr_statusText r)) (Some (tr_status r)) (url rp)))
         None.

(** * Properties *)

(** ** The transport adapter *)

Section MakeRequestFacts.
Context (window : Window) {Ev : Type}.

(** Setting headers leaves a mock as it is. *)
Lemma set_headers_mock (hs : list (string * string)) (m : MockXMLHttpRequest Ev) :
  fold_left (fun x kv => xhr_setRequestHeader x kv.1 kv.2) hs (XMock m) = XMock m.
Proof. induction hs as [|kv hs IH]; simpl; [reflexivity | exact IH]. Qed.

(** On the network handle the headers are appended in order. *)
Lemma set_headers_real (hs : list (string * string)) (x : XMLHttpRequest Ev) :
  fold_left (fun x kv => xhr_setRequestHeader x kv.1 kv.2) hs (XReal x)
  = XReal {| opened := opened x;
             requestHeaders := requestHeaders x ++ hs;
             withCredentials := withCredentials x;
             responseType := responseType x;
             onload := onload x; onerror := onerror x; sent := sent x |}.
Proof.
  revert x. induction hs as [|[k v] hs IH]; intros x; simpl.
  - rewrite app_nil_r. by destruct x.
  - rewrite IH. simpl. by rewrite <- app_assoc.
Qed.

(** The handle [makeRequest] configures when the registry has a truthy body
    for the host name and path name of the URL. *)
Lemma makeRequest_mock st rp u :
  URL window (url rp) = Some u ->
  truthy (mock_body (mockRequest st !! hostname u) (pathname u)) = true ->
  makeRequest (Ev:=Ev) window st rp
  = MkJs [] (inr (XMock
      {| _url := url rp;
         _response := mock_body (mockRequest st !! hostname u) (pathname u);
         _withCredentials := Some (bool_decide (credentials rp = Some "include"));
         _onloadCallback := None; _statusText := None; _status := None |})).
Proof.
  intros Hu Ht. unfold makeRequest. rewrite Hu. simpl. rewrite Ht. simpl.
  by rewrite set_headers_mock.
Qed.

(** The handle it configures otherwise: a request on the network. *)
Lemma makeRequest_real st rp u :
  URL window (url rp) = Some u ->
  truthy (mock_body (mockRequest st !! hostname u) (pathname u)) = false ->
  makeRequest (Ev:=Ev) window st rp
  = MkJs [] (inr (XReal
      {| opened := [("GET", url rp, true)];
         requestHeaders := default [] (headers rp);
         withCredentials := bool_decide (credentials rp = Some "include");
         responseType := ""; onload := None; onerror := None; sent := 0%nat |})).
Proof.
  intros Hu Ht. unfold makeRequest. rewrite Hu. simpl. rewrite Ht. simpl.
  by rewrite set_headers_real.
Qed.

(** A URL the host rejects makes [makeRequest] throw. *)
Lemma makeRequest_invalid_url st rp :
  URL window (url rp) = None ->
  makeRequest (Ev:=Ev) window st rp = MkJs [] (inl (TypeError "Invalid URL")).
Proof. intros Hu. unfold makeRequest. by rewrite Hu. Qed.

(** A mock is only ever built around a truthy body: the 404 branch of
    [MockXMLHttpRequest_send] is not reached through [makeRequest]. *)
Lemma makeRequest_mock_truthy st rp evs m :
  makeRequest (Ev:=Ev) window st rp = MkJs evs (inr (XMock m)) ->
  truthy (_response m) = true.
Proof.
  unfold makeRequest. destruct (URL window (url rp)) as [u|]; [|discriminate].
  simpl. destruct (truthy (mock_body _ _)) eqn:Ht; simpl.
  - rewrite set_headers_mock. simpl. intros H. injection H as _ <-. exact Ht.
  - rewrite set_headers_real. discriminate.
Qed.
End MakeRequestFacts.

(** [send] on a mock that holds a truthy body and a load handler: the status
    becomes 200 and the handler runs on the mock in that state. *)
Lemma MockXMLHttpRequest_send_truthy {Ev} (m : MockXMLHttpRequest Ev) (h : Handler Ev) :
  truthy (_response m) = true ->
  _onloadCallback m = Some h ->
  let m' :=
    {| _url := _url m; _response := _response m;
       _withCredentials := _withCredentials m;
       _onloadCallback := _onloadCallback m;
       _statusText := _statusText m; _status := Some 200 |} in
  MockXMLHttpRequest_send m = (_ ← h (mock_view m'); mret m').
Proof.
  intros Ht Hh m'. subst m'. unfold MockXMLHttpRequest_send. rewrite Ht.
  cbn [_onloadCallback]. rewrite Hh. reflexivity.
Qed.

(** Binding twice is binding once with the composed continuation. *)
Lemma bind_assoc {Ev A B C} (m : Js Ev A) (f : A -> Js Ev B) (g : B -> Js Ev C) :
  bind (bind m f) g = bind m (fun a => bind (f a) g).
Proof.
  unfold bind. destruct m as [evs [e|a]]; simpl; [reflexivity|].
  destruct (f a) as [evs' [e|b]]; simpl; [reflexivity|].
  by rewrite app_assoc.
Qed.

Lemma bind_ret_l {Ev A B} (a : A) (f : A -> Js Ev B) :
  bind (MkJs [] (inr a)) f = f a.
Proof. unfold bind. simpl. by destruct (f a). Qed.

Section OperationsOnTheNetwork.
Context (window : Window) {Ev : Type}.

(** [getJSON] when the registry has nothing truthy for the URL: the request
    leaves for the network with the [Accept] header added, and nothing is
    delivered until the host completes it. *)
Lemma getJSON_real st rp u (callback : Callback Ev JSON.t) :
  URL window (url rp) = Some u ->
  truthy (mock_body (mockRequest st !! hostname u) (pathname u)) = false ->
  getJSON window st rp callback
  = MkJs [] (inr (XReal
      {| opened := [("GET", url rp, true)];
         requestHeaders := default [] (headers rp) ++ [("Accept", "application/json")];
         withCredentials := bool_decide (credentials rp = Some "include");
         responseType := "";
         onload := Some (getJSON_onload rp callback);
         onerror := Some (onerror_handler callback);
         sent := 1%nat |})).
Proof.
  intros Hu Ht. unfold getJSON.
  rewrite (makeRequest_real window st rp u Hu Ht). reflexivity.
Qed.

(** The same for [getArrayBuffer], which asks for the [arraybuffer]
    response type and adds no header. *)
Lemma getArrayBuffer_real st rp u (callback : Callback Ev BufferResult) :
  URL window (url rp) = Some u ->
  truthy (mock_body (mockRequest st !! hostname u) (pathname u)) = false ->
  getArrayBuffer window st rp callback
  = MkJs [] (inr (XReal
      {| opened := [("GET", url rp, true)];
         requestHeaders := default [] (headers rp);
         withCredentials := bool_decide (credentials rp = Some "include");
         responseType := "arraybuffer";
         onload := Some (getArrayBuffer_onload rp callback);
         onerror := Some (onerror_handler callback);
         sent := 1%nat |})).
Proof.
  intros Hu Ht. unfold getArrayBuffer.
  rewrite (makeRequest_real window st rp u Hu Ht). reflexivity.
Qed.

(** [getJSON] when the registry has a truthy body: the mock completes
    inside [send], with status 200, and the load handler has run by the
    time [getJSON] returns. *)
Lemma getJSON_mock st rp u (callback : Callback Ev JSON.t) :
  URL window (url rp) = Some u ->
  truthy (mock_body (mockRequest st !! hostname u) (pathname u)) = true ->
  let body := mock_body (mockRequest st !! hostname u) (pathname u) in
  let m :=
    {| _url := url rp; _response := body;
       _withCredentials := Some (bool_decide (credentials rp = Some "include"));
       _onloadCallback := Some (getJSON_onload rp callback);
       _statusText := None; _status := Some 200 |} in
  getJSON window st rp callback
  = (_ ← getJSON_onload rp callback (mock_view m); mret (XMock m)).
Proof.
  intros Hu Ht body m. unfold getJSON.
  rewrite (makeRequest_mock window st rp u Hu Ht).
  unfold mbind, Js_bind. rewrite bind_ret_l. cbn [xhr_setRequestHeader
    xhr_set_onerror xhr_set_onload xhr_send _url _response _withCredentials
    _onloadCallback _statusText _status].
  unfold mbind, Js_bind.
  rewrite MockXMLHttpRequest_send_truthy with (h := getJSON_onload rp callback)
    by (first [exact Ht | reflexivity]).
  unfold mbind, Js_bind. rewrite bind_assoc. reflexivity.
Qed.

(** The same for [getArrayBuffer]. *)
Lemma getArrayBuffer_mock st rp u (callback : Callback Ev BufferResult) :
  URL window (url rp) = Some u ->
  truthy (mock_body (mockRequest st !! hostname u) (pathname u)) = true ->
  let body := mock_body (mockRequest st !! hostname u) (pathname u) in
  let m :=
    {| _url := url rp; _response := body;
       _withCredentials := Some (bool_decide (credentials rp = Some "include"));
       _onloadCallback := Some (getArrayBuffer_onload rp callback);
       _statusText := None; _status := Some 200 |} in
  getArrayBuffer window st rp callback
  = (_ ← getArrayBuffer_onload rp callback (mock_view m); mret (XMock m)).
Proof.
  intros Hu Ht body m. unfold getArrayBuffer.
  rewrite (makeRequest_mock window st rp u Hu Ht).
  unfold mbind, Js_bind. rewrite bind_ret_l. cbn [xhr_set_responseType
    xhr_set_onerror xhr_set_onload xhr_send _url _response _withCredentials
    _onloadCallback _statusText _status].
  unfold mbind, Js_bind.
  rewrite MockXMLHttpRequest_send_truthy with (h := getArrayBuffer_onload rp callback)
    by (first [exact Ht | reflexivity]).
  unfold mbind, Js_bind. rewrite bind_assoc. reflexivity.
Qed.
(** When the host completes or fails the exchange [getJSON] started, the
    handlers [getJSON] installed run. *)
Lemma getJSON_network_completion st rp u (callback : Callback Ev JSON.t) :
  URL window (url rp) = Some u ->
  truthy (mock_body (mockRequest st !! hostname u) (pathname u)) = false ->
  exists x,
    getJSON window st rp callback = MkJs [] (inr (XReal x))
    /\ forall r,
         fire_load x r = getJSON_onload rp callback (real_view r)
         /\ fire_error x r
            = callback (Some (Error (Some (tr_statusText r)))) None.
Proof.
  intros Hu Ht. eexists. split; [apply (getJSON_real st rp u callback Hu Ht)|].
  intros r. by split.
Qed.

(** The same for [getArrayBuffer]. *)
Lemma getArrayBuffer_network_completion st rp u
    (callback : Callback Ev BufferResult) :
  URL window (url rp) = Some u ->
  truthy (mock_body (mockRequest st !! hostname u) (pathname u)) = false ->
  exists x,
    getArrayBuffer window st rp callback = MkJs [] (inr (XReal x))
    /\ forall r,
         fire_load x r = getArrayBuffer_onload rp callback (real_view r)
         /\ fire_error x r
            = callback (Some (Error (Some (tr_statusText r)))) None.
Proof.
  intros Hu Ht. eexists.
  split; [apply (getArrayBuffer_real st rp u callback Hu Ht)|].
  intros r. by split.
Qed.
End OperationsOnTheNetwork.

(** ** The completion handlers, for any callback *)

Section HandlerFacts.
Context {Ev : Type}.

(** Running a unit computation and then returning is running it. *)
Lemma bind_ret_r (m : Js Ev unit) : bind m (fun _ => MkJs [] (inr tt)) = m.
Proof.
  unfold bind. destruct m as [evs [e|[]]]; simpl; [reflexivity|].
  by rewrite app_nil_r.
Qed.

Lemma success_status_spec (s : Z) :
  success_status (Some s) = true <-> 200 <= s < 300.
Proof.
  unfold success_status, status_ge, status_lt.
  rewrite andb_true_iff, Z.leb_le, Z.ltb_lt. reflexivity.
Qed.

(** [getJSON]'s load handler on a 2xx status and a truthy body the parser
    accepts: the callback is called with the value. *)
Lemma getJSON_onload_parsed rp (callback : Callback Ev JSON.t) xhr j :
  success_status (status xhr) = true ->
  truthy (response xhr) = true ->
  JSON.parse_text (ToString (response xhr)) = Some j ->
  getJSON_onload rp callback xhr = callback None (Some j).
Proof.
  intros Hs Ht Hp. unfold getJSON_onload. fold (success_status (status xhr)).
  rewrite Hs, Ht. simpl. unfold JSON_parse. rewrite Hp.
  unfold mbind, Js_bind, mret, Js_ret, ret, try_catch, bind. simpl.
  by destruct (callback None (Some j)).
Qed.

(** On a 2xx status and a truthy body the parser rejects: the callback is
    called with the error [JSON.parse] threw. *)
Lemma getJSON_onload_malformed rp (callback : Callback Ev JSON.t) xhr :
  success_status (status xhr) = true ->
  truthy (response xhr) = true ->
  JSON.parse_text (ToString (response xhr)) = None ->
  getJSON_onload rp callback xhr = callback (Some SyntaxError) None.
Proof.
  intros Hs Ht Hp. unfold getJSON_onload. fold (success_status (status xhr)).
  rewrite Hs, Ht. simpl. unfold JSON_parse. rewrite Hp.
  unfold mbind, Js_bind, mret, Js_ret, ret, throw, try_catch, bind. simpl.
  destruct (callback (Some SyntaxError) None) as [evs [e|[]]]; simpl.
  - reflexivity.
  - by rewrite !app_nil_r.
Qed.

(** On any other status, or on a falsy body: an [AJAXError] that carries
    the status line, the status and the URL of the request. *)
Lemma getJSON_onload_http_error rp (callback : Callback Ev JSON.t) xhr :
  success_status (status xhr) && truthy (response xhr) = false ->
  getJSON_onload rp callback xhr
  = callback (Some (AJAXError (statusText xhr) (status xhr) (url rp))) None.
Proof.
  intros H. unfold getJSON_onload. fold (success_status (status xhr)).
  by rewrite H.
Qed.

(** [getArrayBuffer]'s load handler when the body is [null] or [undefined]:
    reading [byteLength] throws before any callback is called. *)
Lemma getArrayBuffer_onload_no_body rp (callback : Callback Ev BufferResult) xhr e :
  get_byteLength (response xhr) = inl e ->
  getArrayBuffer_onload rp callback xhr = MkJs [] (inl e).
Proof. intros H. unfold getArrayBuffer_onload. by rewrite H. Qed.

(** Status 200 and a buffer of zero bytes: the empty-body error. *)
Lemma getArrayBuffer_onload_empty_200 rp (callback : Callback Ev BufferResult) xhr :
  get_byteLength (response xhr) = inr (Some 0) ->
  status xhr = Some 200 ->
  getArrayBuffer_onload rp callback xhr
  = callback (Some (Error (Some "http status 200 returned without content."))) None.
Proof.
  intros Hb Hs. unfold getArrayBuffer_onload. rewrite Hb, Hs.
  unfold mbind, Js_bind, lift_result. rewrite bind_ret_l. reflexivity.
Qed.

(** A 2xx status and a truthy body that is not the empty-200 case, on a
    handle that has [getResponseHeader]: success, with the body and the
    two headers. *)
Lemma getArrayBuffer_onload_success rp (callback : Callback Ev BufferResult)
    xhr len hdr :
  get_byteLength (response xhr) = inr len ->
  bool_decide (len = Some 0) && status_is (status xhr) 200 = false ->
  success_status (status xhr) = true ->
  truthy (response xhr) = true ->
  getResponseHeader xhr = Some hdr ->
  getArrayBuffer_onload rp callback xhr
  = callback None (Some {| data := response xhr;
                           cacheControl := hdr "Cache-Control";
                           expires := hdr "Expires" |}).
Proof.
  intros Hb He Hs Ht Hh. unfold getArrayBuffer_onload. rewrite Hb.
  unfold mbind, Js_bind, lift_result. rewrite bind_ret_l. rewrite He.
  fold (success_status (status xhr)). rewrite Hs, Ht. simpl.
  unfold call_getResponseHeader. rewrite Hh.
  unfold mret, Js_ret, ret. rewrite !bind_ret_l. reflexivity.
Qed.

(** The same exchange on a handle without [getResponseHeader]: the call
    throws while the arguments of the callback are being built. *)
Lemma getArrayBuffer_onload_no_method rp (callback : Callback Ev BufferResult)
    xhr len :
  get_byteLength (response xhr) = inr len ->
  bool_decide (len = Some 0) && status_is (status xhr) 200 = false ->
  success_status (status xhr) = true ->
  truthy (response xhr) = true ->
  getResponseHeader xhr = None ->
  getArrayBuffer_onload rp callback xhr
  = MkJs [] (inl (TypeError "xhr.getResponseHeader is not a function")).
Proof.
  intros Hb He Hs Ht Hh. unfold getArrayBuffer_onload. rewrite Hb.
  unfold mbind, Js_bind, lift_result. rewrite bind_ret_l. rewrite He.
  fold (success_status (status xhr)). rewrite Hs, Ht. simpl.
  unfold call_getResponseHeader. rewrite Hh. reflexivity.
Qed.

(** Any other completed exchange with a body to read: an [AJAXError]. *)
Lemma getArrayBuffer_onload_http_error rp (callback : Callback Ev BufferResult)
    xhr len :
  get_byteLength (response xhr) = inr len ->
  bool_decide (len = Some 0) && status_is (status xhr) 200 = false ->
  success_status (status xhr) && truthy (response xhr) = false ->
  getArrayBuffer_onload rp callback xhr
  = callback (Some (AJAXError (statusText xhr) (status xhr) (url rp))) None.
Proof.
  intros Hb He Hs. unfold getArrayBuffer_onload. rewrite Hb.
  unfold mbind, Js_bind, lift_result. rewrite bind_ret_l. rewrite He.
  fold (success_status (status xhr)). by rewrite Hs.
Qed.
End HandlerFacts.

(** Whatever the completed exchange, the load handler of [getJSON] calls the
    callback exactly once, with arguments that only depend on the exchange. *)
Lemma getJSON_onload_once rp xhr :
  exists err res, forall Ev (callback : Callback Ev JSON.t),
    getJSON_onload rp callback xhr = callback err res.
Proof.
  destruct (success_status (status xhr)) eqn:Hs;
    [destruct (truthy (response xhr)) eqn:Ht|].
  - destruct (JSON.parse_text (ToString (response xhr))) as [j|] eqn:Hp.
    + exists None, (Some j). intros Ev callback.
      by apply getJSON_onload_parsed.
    + exists (Some SyntaxError), None. intros Ev callback.
      by apply getJSON_onload_malformed.
  - eexists _, None. intros Ev callback.
    apply getJSON_onload_http_error. by rewrite Hs, Ht.
  - eexists _, None. intros Ev callback.
    apply getJSON_onload_http_error. by rewrite Hs.
Qed.

(** The load handler of [getArrayBuffer] either throws before it has called
    the callback, or calls it exactly once. *)
Lemma getArrayBuffer_onload_once_or_throws rp xhr :
  (exists e, forall Ev (callback : Callback Ev BufferResult),
     getArrayBuffer_onload rp callback xhr = MkJs [] (inl e))
  \/ (exists err res, forall Ev (callback : Callback Ev BufferResult),
        getArrayBuffer_onload rp callback xhr = callback err res).
Proof.
  destruct (get_byteLength (response xhr)) as [e|len] eqn:Hb.
  { left. exists e. intros Ev callback. by apply getArrayBuffer_onload_no_body. }
  destruct (bool_decide (len = Some 0) && status_is (status xhr) 200) eqn:He.
  { right. apply andb_true_iff in He as [Hl H200].
    apply bool_decide_eq_true in Hl. subst len.
    assert (status xhr = Some 200) as Hs.
    { unfold status_is in H200. destruct (status xhr) as [v|]; [|discriminate].
      apply Z.eqb_eq in H200. by subst v. }
    eexists _, None. intros Ev callback.
    by apply getArrayBuffer_onload_empty_200. }
  destruct (success_status (status xhr) && truthy (response xhr)) eqn:Hok.
  - apply andb_true_iff in Hok as [Hs Ht].
    destruct (getResponseHeader xhr) as [hdr|] eqn:Hh.
    + right. eexists None, (Some _). intros Ev callback.
      by apply (getArrayBuffer_onload_success rp callback xhr len hdr).
    + left. eexists. intros Ev callback.
      by apply (getArrayBuffer_onload_no_method rp callback xhr len).
  - right. eexists _, None. intros Ev callback.
    by apply (getArrayBuffer_onload_http_error rp callback xhr len).
Qed.

(** What the recording callback saw is what any other callback is given. *)
Lemma getArrayBuffer_onload_recorded rp xhr err res :
  getArrayBuffer_onload rp record xhr = MkJs [CallbackArgs err res] (inr tt) ->
  forall Ev (callback : Callback Ev BufferResult),
    getArrayBuffer_onload rp callback xhr = callback err res.
Proof.
  intros Hrec Ev callback.
  destruct (getArrayBuffer_onload_once_or_throws rp xhr)
    as [[e He]|[err' [res' H]]].
  - rewrite (He _ record) in Hrec. discriminate.
  - rewrite (H _ record) in Hrec. unfold record, emit in Hrec.
    injection Hrec as <- <-. apply H.
Qed.

(** A body that is truthy has a [byteLength] to read. *)
Lemma truthy_has_byteLength (v : JsVal) :
  truthy v = true -> exists len, get_byteLength v = inr len.
Proof. destruct v; simpl; intros H; try discriminate; by eexists. Qed.

(** The data of a successful buffer fetch is truthy. *)
Lemma getArrayBuffer_success_data rp xhr d :
  getArrayBuffer_onload rp record xhr
  = MkJs [CallbackArgs None (Some d)] (inr tt) ->
  truthy (data d) = true.
Proof.
  intros Hrec.
  destruct (get_byteLength (response xhr)) as [e|len] eqn:Hb.
  { rewrite (getArrayBuffer_onload_no_body rp record xhr e Hb) in Hrec.
    discriminate. }
  destruct (bool_decide (len = Some 0) && status_is (status xhr) 200) eqn:He.
  { apply andb_true_iff in He as [Hl H200].
    apply bool_decide_eq_true in Hl. subst len.
    assert (status xhr = Some 200) as Hs.
    { unfold status_is in H200. destruct (status xhr) as [v|]; [|discriminate].
      apply Z.eqb_eq in H200. by subst v. }
    rewrite (getArrayBuffer_onload_empty_200 rp record xhr Hb Hs) in Hrec.
    discriminate. }
  destruct (success_status (status xhr) && truthy (response xhr)) eqn:Hok.
  - apply andb_true_iff in Hok as [Hs Ht].
    destruct (getResponseHeader xhr) as [hdr|] eqn:Hh.
    + rewrite (getArrayBuffer_onload_success rp record xhr len hdr Hb He Hs Ht Hh)
        in Hrec.
      unfold record, emit in Hrec. injection Hrec as <-. exact Ht.
    + rewrite (getArrayBuffer_onload_no_method rp record xhr len Hb He Hs Ht Hh)
        in Hrec.
      discriminate.
  - rewrite (getArrayBuffer_onload_http_error rp record xhr len Hb He Hok) in Hrec.
    discriminate.
Qed.

(** ** Entries of the registry *)

Section RegistryEntries.
Context (window : Window) {Ev : Type}.

Lemma mock_body_entry (st : ModuleState) (u : URLRecord)
    (paths : gmap string JsVal) (body : JsVal) :
  mockRequest st !! hostname u = Some paths ->
  paths !! pathname u = Some body ->
  mock_body (mockRequest st !! hostname u) (pathname u) = body.
Proof. intros Hh Hp. unfold mock_body. by rewrite Hh, Hp. Qed.

(** An entry whose body is falsy does not stop the request: [getJSON]
    sends it to the network. *)
Lemma falsy_entry_getJSON st rp u paths body (callback : Callback Ev JSON.t) :
  URL window (url rp) = Some u ->
  mockRequest st !! hostname u = Some paths ->
  paths !! pathname u = Some body ->
  truthy body = false ->
  exists x, getJSON window st rp callback = MkJs [] (inr (XReal x))
            /\ sent x = 1%nat.
Proof.
  intros Hu Hh Hp Ht. eexists. split.
  - apply (getJSON_real window st rp u); [exact Hu|].
    by rewrite (mock_body_entry st u paths body).
  - reflexivity.
Qed.

(** And so does [getArrayBuffer]. *)
Lemma falsy_entry_getArrayBuffer st rp u paths body
    (callback : Callback Ev BufferResult) :
  URL window (url rp) = Some u ->
  mockRequest st !! hostname u = Some paths ->
  paths !! pathname u = Some body ->
  truthy body = false ->
  exists x, getArrayBuffer window st rp callback = MkJs [] (inr (XReal x))
            /\ sent x = 1%nat.
Proof.
  intros Hu Hh Hp Ht. eexists. split.
  - apply (getArrayBuffer_real window st rp u); [exact Hu|].
    by rewrite (mock_body_entry st u paths body).
  - reflexivity.
Qed.
End RegistryEntries.

(** C1. The claim: an entry of the registry whose body is absent or empty
    answers the matching [getJSON] or [getArrayBuffer] call with one
    [AJAXError] of status 404, without contacting the network. The code at
    such an entry: the registry of the examples holds the empty string for
    [/empty.json] and [null] for [/null.json]; the test
    [hostMock && hostMock[pathName]] of [makeRequest] is false on both, so
    the handle is the network's, [send] starts a real exchange, and no
    callback is called. The 404 branch of [MockXMLHttpRequest.send] is never
    reached. *)
Theorem C1_empty_entry_contacts_network :
  examplePaths !! "/empty.json" = Some (VStr "")
  /\ examplePaths !! "/null.json" = Some VNull
  /\ (exists x,
        getJSON exampleWindow exampleState
          (params "http://example.com/empty.json") record
        = MkJs [] (inr (XReal x))
        /\ opened x = [("GET", "http://example.com/empty.json", true)]
        /\ sent x = 1%nat)
  /\ (exists x,
        getArrayBuffer exampleWindow exampleState
          (params "http://example.com/null.json") record
        = MkJs [] (inr (XReal x))
        /\ opened x = [("GET", "http://example.com/null.json", true)]
        /\ sent x = 1%nat).
Proof.
  split; [by vm_compute|]. split; [by vm_compute|]. split.
  - eexists. split; [|split].
    + eapply (getJSON_real exampleWindow); by vm_compute.
    + reflexivity.
    + reflexivity.
  - eexists. split; [|split].
    + eapply (getArrayBuffer_real exampleWindow); by vm_compute.
    + reflexivity.
    + reflexivity.
Qed.

(** C2. The claim: whatever the completed exchange, [getArrayBuffer] calls
    its callback exactly once and lets no exception escape. The code on two
    completed exchanges: (1) the registry of the examples holds the body
    [abc] for [/tile.txt]; the mock completes with status 200 inside
    [send], the load handler asks the mock for [getResponseHeader], which
    the class does not define, and the [TypeError] leaves [getArrayBuffer]
    with the callback never called; (2) on a network exchange that ends
    with a [null] body the handler reads [byteLength] of [null] and throws,
    again before any callback. *)
Theorem C2_getArrayBuffer_exception_escapes :
  getArrayBuffer exampleWindow exampleState
    (params "http://example.com/tile.txt") record
  = MkJs [] (inl (TypeError "xhr.getResponseHeader is not a function"))
  /\ getArrayBuffer_onload (params "http://example.com/missing.pbf") record
       (real_view {| tr_status := 404; tr_statusText := "Not Found";
                     tr_response := VNull; tr_headers := fun _ => None |})
     = MkJs [] (inl (TypeError "Cannot read property 'byteLength' of null")).
Proof.
  split.
  - erewrite (getArrayBuffer_mock exampleWindow); [|by vm_compute..].
    erewrite getArrayBuffer_onload_no_method; [reflexivity|by vm_compute..].
  - by apply getArrayBuffer_onload_no_body.
Qed.

(** C3, as stated, fails. The claim: every entry with a non-empty body
    answers the matching [getJSON] or [getArrayBuffer] call with a success
    whose value is the decoded body. In the registry of the examples the
    body of [/broken.json] is the one character [{]: non-empty, and
    [getJSON] delivers the [SyntaxError] of [JSON.parse], not a value. The
    body of [/tile.pbf] is three bytes, and [getArrayBuffer] delivers
    nothing at all. *)
Lemma C3_counterexample :
  examplePaths !! "/broken.json" = Some (VStr "{")
  /\ events (getJSON exampleWindow exampleState
               (params "http://example.com/broken.json") record)
     = [CallbackArgs (Some SyntaxError) None]
  /\ ~ (exists v,
          events (getJSON exampleWindow exampleState
                    (params "http://example.com/broken.json") record)
          = [CallbackArgs None (Some v)])
  /\ examplePaths !! "/tile.pbf" = Some (VArrayBuffer [x01; x02; x03])
  /\ ~ (exists v,
          events (getArrayBuffer exampleWindow exampleState
                    (params "http://example.com/tile.pbf") record)
          = [CallbackArgs None (Some v)]).
Proof.
  assert (Hj : events (getJSON exampleWindow exampleState
                         (params "http://example.com/broken.json") record)
               = [CallbackArgs (Some SyntaxError) None]).
  { erewrite (getJSON_mock exampleWindow); [|by vm_compute..].
    erewrite getJSON_onload_malformed; [reflexivity|by vm_compute..]. }
  assert (Hb : events (getArrayBuffer exampleWindow exampleState
                         (params "http://example.com/tile.pbf") record)
               = []).
  { erewrite (getArrayBuffer_mock exampleWindow); [|by vm_compute..].
    erewrite getArrayBuffer_onload_no_method; [reflexivity|by vm_compute..]. }
  split; [by vm_compute|]. split; [exact Hj|]. split.
  - intros [v Hv]. rewrite Hj in Hv. discriminate.
  - split; [by vm_compute|]. intros [v Hv]. rewrite Hb in Hv. discriminate.
Qed.

(** C3, amended. For every entry of the registry with a truthy body, the
    [getJSON] call whose URL has that host name and path name is answered
    by the mock, with the synthesized status 200 and that body, and the
    callback is called exactly once: with the value [JSON.parse] builds from
    the body when it is JSON text, and with the parse error otherwise. *)
Theorem C3_mock_getJSON (window : Window) (st : ModuleState)
    (rp : RequestParameters) (u : URLRecord) (paths : gmap string JsVal)
    (body : JsVal) :
  URL window (url rp) = Some u ->
  mockRequest st !! hostname u = Some paths ->
  paths !! pathname u = Some body ->
  truthy body = true ->
  exists m,
    _status m = Some 200 /\ _response m = body
    /\ getJSON window st rp record
       = MkJs [match JSON.parse_text (ToString body) with
               | Some j => CallbackArgs None (Some j)
               | None => CallbackArgs (Some SyntaxError) None
               end] (inr (XMock m)).
Proof.
  intros Hu Hh Hp Ht.
  pose proof (mock_body_entry st u paths body Hh Hp) as Hb.
  rewrite <- Hb in Ht.
  eexists. split; [|split]; cycle 2.
  - rewrite (getJSON_mock window st rp u record Hu Ht). rewrite Hb.
    destruct (JSON.parse_text (ToString body)) as [j|] eqn:Hj.
    + erewrite getJSON_onload_parsed; [reflexivity| | |exact Hj].
      * reflexivity.
      * simpl. by rewrite <- Hb.
    + erewrite getJSON_onload_malformed; [reflexivity| | |exact Hj].
      * reflexivity.
      * simpl. by rewrite <- Hb.
  - reflexivity.
  - reflexivity.
Qed.

Lemma C3_mock_getJSON_witness :
  exists m,
    _status m = Some 200
    /\ _response m = VStr "[1, 2.5, true, null]"
    /\ getJSON exampleWindow exampleState
         (params "http://example.com/style.json") record
       = MkJs [CallbackArgs None
                 (Some (JSON.JArray [JSON.JNumber "1"; JSON.JNumber "2.5";
                                     JSON.JBool true; JSON.JNull]))]
           (inr (XMock m)).
Proof.
  apply (C3_mock_getJSON exampleWindow exampleState
           (params "http://example.com/style.json")
           {| protocol := "http:"; hostname := "example.com"; port := "";
              pathname := "/style.json"; search := ""; hash := "" |}
           examplePaths (VStr "[1, 2.5, true, null]")).
  - vm_compute. reflexivity.
  - vm_compute. reflexivity.
  - vm_compute. reflexivity.
  - reflexivity.
Defined.

(** ** [getArrayBuffer] on the network *)

(** What the host delivers for the [arraybuffer] response type: a buffer. On
    status 200 with no byte the callback gets the empty-body error, once. *)
Lemma getArrayBuffer_network_empty_200 rp (r : TransportResult) :
  tr_status r = 200 ->
  tr_response r = VArrayBuffer [] ->
  getArrayBuffer_onload rp record (real_view r)
  = MkJs [CallbackArgs
            (Some (Error (Some "http status 200 returned without content.")))
            None] (inr tt).
Proof.
  intros Hs Hr. rewrite getArrayBuffer_onload_empty_200; [reflexivity| |].
  - simpl. by rewrite Hr.
  - simpl. by rewrite Hs.
Qed.

(** On a 2xx status with at least one byte the callback gets the bytes and
    the two headers, once. *)
Lemma getArrayBuffer_network_success rp (r : TransportResult) (bytes : list byte) :
  200 <= tr_status r < 300 ->
  tr_response r = VArrayBuffer bytes ->
  bytes <> [] ->
  getArrayBuffer_onload rp record (real_view r)
  = MkJs [CallbackArgs None
            (Some {| data := VArrayBuffer bytes;
                     cacheControl := tr_headers r "Cache-Control";
                     expires := tr_headers r "Expires" |})] (inr tt).
Proof.
  intros Hs Hr Hne.
  rewrite (getArrayBuffer_onload_success rp record (real_view r)
             (Some (Z.of_nat (List.length bytes))) (tr_headers r)).
  - simpl. by rewrite Hr.
  - simpl. by rewrite Hr.
  - apply andb_false_iff. left. apply bool_decide_eq_false. intros [= H].
    destruct bytes; [done|]. simpl in H. lia.
  - simpl. by apply success_status_spec.
  - simpl. by rewrite Hr.
  - reflexivity.
Qed.

(** C4. The claim: status 200 with a zero-length body gives the empty-body
    error, and every 2xx exchange with a non-empty body gives a success
    that carries the bytes and the two headers. The code on such an
    exchange through the mock: the registry of the examples holds three
    bytes for [/tile.pbf]; the mock completes with status 200 and that
    body, the load handler calls [xhr.getResponseHeader], which the mock
    does not have, and no success is delivered. (On a network handle both
    halves hold: [getArrayBuffer_network_empty_200] and
    [getArrayBuffer_network_success].) *)
Theorem C4_mock_buffer_delivers_nothing :
  examplePaths !! "/tile.pbf" = Some (VArrayBuffer [x01; x02; x03])
  /\ getArrayBuffer_onload (params "http://example.com/tile.pbf") record
       {| status := Some 200; statusText := None;
          response := VArrayBuffer [x01; x02; x03];
          getResponseHeader := None |}
     = MkJs [] (inl (TypeError "xhr.getResponseHeader is not a function"))
  /\ getArrayBuffer exampleWindow exampleState
       (params "http://example.com/tile.pbf") record
     = MkJs [] (inl (TypeError "xhr.getResponseHeader is not a function")).
Proof.
  split; [by vm_compute|]. split.
  - erewrite getArrayBuffer_onload_no_method; [reflexivity|by vm_compute..].
  - erewrite (getArrayBuffer_mock exampleWindow); [|by vm_compute..].
    erewrite getArrayBuffer_onload_no_method; [reflexivity|by vm_compute..].
Qed.

(** ** [getJSON] *)

(** C5. For every call of [getJSON] whose URL the host accepts, and every
    exchange that completes with a status in [200, 300) and a non-empty
    body. On the network, [getJSON] returns the handle without having
    called the callback, and the load event on that handle calls the
    callback exactly once and returns normally: with the error
    [JSON.parse] threw when the body is not JSON text, with a null error
    and the parsed value when it is. When the mock answers, the same
    happens before [getJSON] returns, and [getJSON] returns normally. The
    last part says the same for any callback: the exchange is one call of
    the callback, with these arguments. *)
Theorem C5_getJSON_decode (window : Window) (st : ModuleState)
    (rp : RequestParameters) (u : URLRecord) :
  URL window (url rp) = Some u ->
  (truthy (mock_body (mockRequest st !! hostname u) (pathname u)) = false ->
   exists x,
     getJSON window st rp record = MkJs [] (inr (XReal x))
     /\ forall r,
          200 <= tr_status r < 300 ->
          truthy (tr_response r) = true ->
          (JSON.parse_text (ToString (tr_response r)) = None ->
           fire_load x r = MkJs [CallbackArgs (Some SyntaxError) None] (inr tt))
          /\ (forall j,
                JSON.parse_text (ToString (tr_response r)) = Some j ->
                fire_load x r = MkJs [CallbackArgs None (Some j)] (inr tt)))
  /\ (truthy (mock_body (mockRequest st !! hostname u) (pathname u)) = true ->
      exists m,
        _status m = Some 200
        /\ _response m = mock_body (mockRequest st !! hostname u) (pathname u)
        /\ (JSON.parse_text (ToString (_response m)) = None ->
            getJSON window st rp record
            = MkJs [CallbackArgs (Some SyntaxError) None] (inr (XMock m)))
        /\ (forall j,
              JSON.parse_text (ToString (_response m)) = Some j ->
              getJSON window st rp record
              = MkJs [CallbackArgs None (Some j)] (inr (XMock m))))
  /\ (forall Ev (callback : Callback Ev JSON.t),
        truthy (mock_body (mockRequest st !! hostname u) (pathname u)) = false ->
        exists x,
          getJSON window st rp callback = MkJs [] (inr (XReal x))
          /\ forall r,
               200 <= tr_status r < 300 ->
               truthy (tr_response r) = true ->
               fire_load x r
               = match JSON.parse_text (ToString (tr_response r)) with
                 | Some j => callback None (Some j)
                 | None => callback (Some SyntaxError) None
                 end).
Proof.
  intros Hu. split; [|split].
  - intros Ht. eexists.
    split; [apply (getJSON_real window st rp u record Hu Ht)|].
    intros r Hs Hr.
    assert (Hok : success_status (status (real_view r)) = true)
      by (simpl; by apply success_status_spec).
    split.
    + intros Hp. unfold fire_load. cbn [onload].
      by rewrite getJSON_onload_malformed.
    + intros j Hp. unfold fire_load. cbn [onload].
      by rewrite (getJSON_onload_parsed rp record (real_view r) j).
  - intros Ht. eexists. split; [|split; [|split]]; cycle 2.
    + intros Hp. rewrite (getJSON_mock window st rp u record Hu Ht).
      rewrite getJSON_onload_malformed; [reflexivity|reflexivity|exact Ht|].
      exact Hp.
    + intros j Hp. rewrite (getJSON_mock window st rp u record Hu Ht).
      rewrite (getJSON_onload_parsed rp record _ j);
        [reflexivity|reflexivity|exact Ht|exact Hp].
    + reflexivity.
    + reflexivity.
  - intros Ev callback Ht. eexists.
    split; [apply (getJSON_real window st rp u callback Hu Ht)|].
    intros r Hs Hr.
    assert (Hok : success_status (status (real_view r)) = true)
      by (simpl; by apply success_status_spec).
    unfold fire_load. cbn [onload].
    destruct (JSON.parse_text (ToString (tr_response r))) as [j|] eqn:Hp.
    + by apply getJSON_onload_parsed.
    + by apply getJSON_onload_malformed.
Qed.

Lemma C5_getJSON_decode_witness :
  exists x,
    getJSON exampleWindow exampleState
      (params "http://tiles.example.org/style.json") record
    = MkJs [] (inr (XReal x))
    /\ fire_load x {| tr_status := 200; tr_statusText := "OK";
                      tr_response := VStr "[1, 2";
                      tr_headers := fun _ => None |}
       = MkJs [CallbackArgs (Some SyntaxError) None] (inr tt)
    /\ fire_load x {| tr_status := 201; tr_statusText := "Created";
                      tr_response := VStr "[1, 2]";
                      tr_headers := fun _ => None |}
       = MkJs [CallbackArgs None
                 (Some (JSON.JArray [JSON.JNumber "1"; JSON.JNumber "2"]))]
           (inr tt).
Proof.
  destruct (C5_getJSON_decode exampleWindow exampleState
              (params "http://tiles.example.org/style.json")
              {| protocol := "http:"; hostname := "tiles.example.org";
                 port := ""; pathname := "/style.json"; search := "";
                 hash := "" |}) as [Hnet _].
  { vm_compute. reflexivity. }
  destruct Hnet as [x [Hx Hload]].
  { vm_compute. reflexivity. }
  exists x. split; [exact Hx|]. split.
  - apply Hload.
    + simpl. lia.
    + reflexivity.
    + reflexivity.
  - apply Hload.
    + simpl. lia.
    + reflexivity.
    + reflexivity.
Defined.

(** ** [getVideo] *)

Section VideoFacts.
Context (window : Window).

(** The loop, from any element: the sources are appended in order, and
    the cross-origin mode is set when a URL is cross-origin and kept
    otherwise. *)
Lemma getVideo_loop (urls : list string) (video : HTMLVideoElement) :
  fold_left (getVideo_body window) urls video
  = {| crossOrigin :=
         if existsb (fun u => negb (sameOrigin window u)) urls
         then Some "Anonymous" else crossOrigin video;
       children := children video ++ map (fun u => {| src := u |}) urls |}.
Proof.
  revert video. induction urls as [|u urls IH]; intros video; simpl.
  - rewrite app_nil_r. by destruct video.
  - rewrite IH. unfold getVideo_body, appendChild.
    destruct (sameOrigin window u); simpl.
    + by rewrite <- app_assoc.
    + rewrite <- app_assoc. simpl. by destruct (existsb _ urls).
Qed.

Lemma sameOrigin_false (u : string) :
  sameOrigin window u = false
  <-> protocol (anchor window u) <> protocol (location window)
      \/ host (anchor window u) <> host (location window).
Proof.
  unfold sameOrigin. rewrite andb_false_iff, !String.eqb_neq. reflexivity.
Qed.
End VideoFacts.

(** C6. For every list of URLs, [getVideo] attaches one source per URL, in
    the order of the list; the cross-origin mode of the video is
    [Anonymous] exactly when some URL of the list is cross-origin, that is
    when its protocol or its host differs from the document's; a mode set
    by the URLs read so far stays set whatever URLs follow; and when every
    URL is same-origin the mode is left unset. *)
Theorem C6_getVideo (window : Window) (urls : list string) :
  children (getVideo window urls) = map (fun u => {| src := u |}) urls
  /\ (crossOrigin (getVideo window urls) = Some "Anonymous"
      <-> exists u, In u urls
          /\ (protocol (anchor window u) <> protocol (location window)
              \/ host (anchor window u) <> host (location window)))
  /\ (forall more,
        crossOrigin (getVideo window urls) = Some "Anonymous" ->
        crossOrigin (getVideo window (urls ++ more)) = Some "Anonymous")
  /\ ((forall u, In u urls -> sameOrigin window u = true) ->
      crossOrigin (getVideo window urls) = None).
Proof.
  unfold getVideo. rewrite getVideo_loop. simpl.
  assert (Hex : forall l,
    existsb (fun u => negb (sameOrigin window u)) l = true
    <-> exists u, In u l
        /\ (protocol (anchor window u) <> protocol (location window)
            \/ host (anchor window u) <> host (location window))).
  { intros l. rewrite existsb_exists. split; intros [u [Hin Hu]]; exists u;
      (split; [exact Hin|]).
    - apply sameOrigin_false. by apply negb_true_iff.
    - apply negb_true_iff. by apply sameOrigin_false. }
  split; [reflexivity|]. split; [|split].
  - rewrite <- Hex. by destruct (existsb _ urls).
  - intros more H. rewrite getVideo_loop. simpl. rewrite existsb_app.
    destruct (existsb _ urls); [reflexivity | discriminate].
  - intros Hall. destruct (existsb _ urls) eqn:He; [|reflexivity].
    apply existsb_exists in He as [u [Hin Hu]].
    rewrite (Hall u Hin) in Hu. discriminate.
Qed.

Lemma C6_getVideo_witness :
  children (getVideo exampleWindow ["/local/a.mp4"; "/local/b.mp4"])
  = [{| src := "/local/a.mp4" |}; {| src := "/local/b.mp4" |}]
  /\ crossOrigin (getVideo exampleWindow ["/local/a.mp4"; "/local/b.mp4"]) = None
  /\ crossOrigin (getVideo exampleWindow
                    (["http://other-origin/a.mp4"] ++ ["/local/b.mp4"]))
     = Some "Anonymous".
Proof.
  split; [|split].
  - exact (proj1 (C6_getVideo exampleWindow ["/local/a.mp4"; "/local/b.mp4"])).
  - apply (C6_getVideo exampleWindow ["/local/a.mp4"; "/local/b.mp4"]).
    intros u [<-|[<-|[]]]; reflexivity.
  - apply (C6_getVideo exampleWindow ["http://other-origin/a.mp4"]).
    reflexivity.
Defined.

(** ** [getImage] *)

(** The fallback is a PNG file whose header declares one pixel by one
    pixel, eight bits deep, with an alpha channel (colour type 6). *)
Lemma transparentPngUrl_header :
  png_bytes transparentPngUrl ≫= png_header = Some (1, 1, 8, 6)%N.
Proof. vm_compute. reflexivity. Qed.

(** Returning after a computation adds no event. *)
Lemma events_bind_ret {Ev A B} (m : Js Ev A) (b : A -> B) :
  events (bind m (fun a => MkJs [] (inr (b a)))) = events m.
Proof.
  unfold bind. destruct m as [evs [e|a]]; simpl; [reflexivity|].
  apply app_nil_r.
Qed.

Section ImageFacts.
Context (window : Window) {Ev : Type}.

(** [getImage] on the network: the handle of [getArrayBuffer], with the
    callback of [getImage] behind its two handlers. *)
Lemma getImage_real st rp u (callback : Callback Ev HTMLImageElement) :
  URL window (url rp) = Some u ->
  truthy (mock_body (mockRequest st !! hostname u) (pathname u)) = false ->
  getImage window st rp callback
  = MkJs [] (inr (XReal
      {| opened := [("GET", url rp, true)];
         requestHeaders := default [] (headers rp);
         withCredentials := bool_decide (credentials rp = Some "include");
         responseType := "arraybuffer";
         onload := Some (getArrayBuffer_onload rp
                           (getImage_callback window callback));
         onerror := Some (onerror_handler (getImage_callback window callback));
         sent := 1%nat |})).
Proof. intros Hu Ht. unfold getImage. by apply (getArrayBuffer_real window st rp u). Qed.

(** The success branch of the callback of [getImage]: an object URL is
    asked for only when the data has bytes, and the image handed to the
    host has the load handler of [getImage]. *)
Lemma getImage_callback_data (callback : Callback Ev HTMLImageElement)
    (d : BufferResult) (len : option Z) :
  get_byteLength (data d) = inr len ->
  getImage_callback window callback None (Some d)
  = MkJs ((if byteLength_truthy len
           then [CreateObjectURL (data d) (createObjectURL window (data d))]
           else [])
          ++ [ImageLoading
                {| img_onload := Some (getImage_img_onload callback);
                   img_element :=
                     {| img_src := if byteLength_truthy len
                                   then createObjectURL window (data d)
                                   else transparentPngUrl;
                        img_cacheControl := cacheControl d;
                        img_expires := expires d |} |}]) (inr tt).
Proof.
  intros Hlen. unfold getImage_callback. rewrite Hlen.
  destruct (byteLength_truthy len) eqn:Hb; unfold mbind, Js_bind, lift_result;
    rewrite bind_ret_l, Hb; reflexivity.
Qed.
End ImageFacts.

(** C7. In every call of [getImage] whose URL the host accepts.
    (1) When the buffer fetch has reported an error by the time it returns
    (the mock answered), [getImage] has passed that error to the callback,
    unchanged, and done nothing else. On the network, [getImage] returns
    the handle of the buffer fetch, and on that handle: (2) a transport
    failure, and (3) every error the load handler of the buffer fetch
    reports, reach the callback unchanged, once, with nothing else done;
    (4) whenever the buffer fetch succeeds, the callback is not called yet:
    an image is handed to the host that carries the [cacheControl] and
    [expires] of the fetch and the load handler of [getImage]; when the
    data has zero bytes no object URL is asked for and the source of the
    image is the fixed transparent pixel; and when the host has loaded the
    image, that handler calls the callback once, with a null error and that
    image, never with an error. (5) The fixed source is a PNG of one pixel
    by one pixel with an alpha channel. *)
Theorem C7_getImage (window : Window) (st : ModuleState)
    (rp : RequestParameters) (u : URLRecord) :
  URL window (url rp) = Some u ->
  (forall e : JsError,
     events (getArrayBuffer window st rp record)
     = [CallbackArgs (Some e) None] ->
     events (getImage window st rp (@record HTMLImageElement))
     = [FromCallback (CallbackArgs (Some e) None)])
  /\ (truthy (mock_body (mockRequest st !! hostname u) (pathname u)) = false ->
      exists x y,
        getImage window st rp (@record HTMLImageElement)
        = MkJs [] (inr (XReal x))
        /\ getArrayBuffer window st rp record = MkJs [] (inr (XReal y))
        /\ forall r : TransportResult,
             fire_error x r
             = MkJs [FromCallback
                       (CallbackArgs (Some (Error (Some (tr_statusText r))))
                          None)] (inr tt)
             /\ (forall e : JsError,
                   fire_load y r = MkJs [CallbackArgs (Some e) None] (inr tt) ->
                   fire_load x r
                   = MkJs [FromCallback (CallbackArgs (Some e) None)] (inr tt))
             /\ (forall d : BufferResult,
                   fire_load y r = MkJs [CallbackArgs None (Some d)] (inr tt) ->
                   exists pre img,
                     fire_load x r = MkJs (pre ++ [ImageLoading img]) (inr tt)
                     /\ (forall ev, In ev pre ->
                           ev = CreateObjectURL (data d)
                                  (createObjectURL window (data d)))
                     /\ img_cacheControl (img_element img) = cacheControl d
                     /\ img_expires (img_element img) = expires d
                     /\ (get_byteLength (data d) = inr (Some 0) ->
                         pre = []
                         /\ img_src (img_element img) = transparentPngUrl)
                     /\ fire_image_load img
                        = MkJs [FromCallback
                                  (CallbackArgs None (Some (img_element img)));
                                RevokeObjectURL (img_src (img_element img))]
                            (inr tt)))
  /\ png_bytes transparentPngUrl ≫= png_header = Some (1, 1, 8, 6)%N.
Proof.
  intros Hu. split; [|split; [|exact transparentPngUrl_header]].
  - intros e Hrec.
    destruct (truthy (mock_body (mockRequest st !! hostname u) (pathname u)))
      eqn:Ht.
    + unfold getImage.
      rewrite (getArrayBuffer_mock window st rp u record Hu Ht) in Hrec.
      rewrite (getArrayBuffer_mock window st rp u
                 (getImage_callback window record) Hu Ht).
      unfold mbind, Js_bind, mret, Js_ret, ret in Hrec |- *.
      rewrite events_bind_ret in Hrec. rewrite events_bind_ret.
      set (v := mock_view _) in *.
      destruct (getArrayBuffer_onload_once_or_throws rp v)
        as [[e' He]|[err [res H]]].
      * rewrite (He _ record) in Hrec. discriminate.
      * rewrite (H _ record) in Hrec. unfold record, emit in Hrec.
        simpl in Hrec. injection Hrec as -> ->.
        rewrite (H _ (getImage_callback window record)). reflexivity.
    + rewrite (getArrayBuffer_real window st rp u record Hu Ht) in Hrec.
      discriminate.
  - intros Ht. do 2 eexists.
    split; [apply (getImage_real window st rp u record Hu Ht)|].
    split; [apply (getArrayBuffer_real window st rp u record Hu Ht)|].
    intros r. unfold fire_error, fire_load. cbn [onload onerror].
    split; [reflexivity|]. split.
    + intros e Hrec.
      by rewrite (getArrayBuffer_onload_recorded rp (real_view r) _ _ Hrec).
    + intros d Hrec.
      rewrite (getArrayBuffer_onload_recorded rp (real_view r) _ _ Hrec).
      destruct (truthy_has_byteLength (data d)
                  (getArrayBuffer_success_data rp (real_view r) d Hrec))
        as [len Hlen].
      rewrite (getImage_callback_data window record d len Hlen).
      do 2 eexists. split; [reflexivity|].
      split; [|split; [reflexivity|split; [reflexivity|split]]].
      * intros ev Hin. destruct (byteLength_truthy len); [|destruct Hin].
        destruct Hin as [<-|[]]. reflexivity.
      * intros H0. rewrite H0 in Hlen. injection Hlen as <-. by split.
      * reflexivity.
Qed.

Lemma C7_getImage_witness :
  exists x,
    getImage exampleWindow exampleState
      (params "http://tiles.example.org/1/2/3.png") (@record HTMLImageElement)
    = MkJs [] (inr (XReal x))
    /\ exists pre img,
         fire_load x {| tr_status := 204; tr_statusText := "No Content";
                        tr_response := VArrayBuffer [];
                        tr_headers := fun h => if String.eqb h "Cache-Control"
                                               then Some "max-age=60"
                                               else None |}
         = MkJs (pre ++ [ImageLoading img]) (inr tt)
         /\ pre = []
         /\ img_element img
            = {| img_src := transparentPngUrl;
                 img_cacheControl := Some "max-age=60";
                 img_expires := None |}
         /\ fire_image_load img
            = MkJs [FromCallback (CallbackArgs None (Some (img_element img)));
                    RevokeObjectURL transparentPngUrl] (inr tt).
Proof.
  destruct (C7_getImage exampleWindow exampleState
              (params "http://tiles.example.org/1/2/3.png")
              {| protocol := "http:"; hostname := "tiles.example.org";
                 port := ""; pathname := "/1/2/3.png"; search := "";
                 hash := "" |}) as (_ & Hnet & _).
  { vm_compute. reflexivity. }
  destruct Hnet as (x & y & Hx & Hy & Hr).
  { vm_compute. reflexivity. }
  exists x. split; [exact Hx|].
  destruct (Hr {| tr_status := 204; tr_statusText := "No Content";
                  tr_response := VArrayBuffer [];
                  tr_headers := fun h => if String.eqb h "Cache-Control"
                                         then Some "max-age=60" else None |})
    as (_ & _ & Hok).
  destruct (Hok {| data := VArrayBuffer []; cacheControl := Some "max-age=60";
                   expires := None |})
    as (pre & img & Hload & _ & Hcc & Hex & Hzero & Hfire).
  { erewrite (getArrayBuffer_real exampleWindow) in Hy;
      [|vm_compute; reflexivity..].
    injection Hy as <-. reflexivity. }
  destruct (Hzero eq_refl) as [Hpre Hsrc].
  exists pre, img. split; [exact Hload|]. split; [exact Hpre|]. split.
  - destruct img as [h [s_ c_ e_]]. simpl in *. by subst.
  - by rewrite Hsrc in Hfire.
Defined.

(** ** Request construction *)

(** C8, as stated, fails. The claim: for every [RequestParameters] the
    adapter constructs one [GET] request with every supplied header
    attached. The registry of the examples answers
    [http://example.com/style.json]: for that URL the handle [makeRequest]
    returns is the mock, whose [open] and [setRequestHeader] are empty, so
    the handle built with an [Authorization] header is the very handle built
    with no header, and [getJSON] returns no request on the network at
    all. *)
Lemma C8_counterexample :
  let rp := {| url := "http://example.com/style.json";
               headers := Some [("Authorization", "Bearer t")];
               credentials := None;
               collectResourceTiming := None |} in
  (exists m, makeRequest (Ev:=Called JSON.t) exampleWindow exampleState rp
             = MkJs [] (inr (XMock m)))
  /\ makeRequest (Ev:=Called JSON.t) exampleWindow exampleState rp
     = makeRequest exampleWindow exampleState
         (params "http://example.com/style.json")
  /\ ~ (exists x, outcome (getJSON exampleWindow exampleState rp record)
                  = inr (XReal x)).
Proof.
  intros rp.
  assert (Hm : makeRequest (Ev:=Called JSON.t) exampleWindow exampleState rp
               = makeRequest exampleWindow exampleState
                   (params "http://example.com/style.json")).
  { erewrite !(makeRequest_mock exampleWindow); [reflexivity|by vm_compute..]. }
  split; [|split; [exact Hm|]].
  - eexists. eapply (makeRequest_mock exampleWindow); by vm_compute.
  - intros [x Hx].
    erewrite (getJSON_mock exampleWindow) in Hx; [|by vm_compute..].
    unfold mbind, Js_bind, bind in Hx.
    destruct (outcome (getJSON_onload _ _ _)); simpl in Hx; discriminate.
Qed.

(** The parameters [rp] with other headers. *)
Lemma makeRequest_mock_any_headers {Ev} (window : Window) (st : ModuleState)
    (rp : RequestParameters) (u : URLRecord)
    (hs : option (list (string * string))) :
  URL window (url rp) = Some u ->
  truthy (mock_body (mockRequest st !! hostname u) (pathname u)) = true ->
  makeRequest (Ev:=Ev) window st
    {| url := url rp; headers := hs; credentials := credentials rp;
       collectResourceTiming := collectResourceTiming rp |}
  = makeRequest window st rp.
Proof.
  intros Hu Ht.
  rewrite (makeRequest_mock (Ev:=Ev) window st rp u Hu Ht).
  exact (makeRequest_mock window st
           {| url := url rp; headers := hs; credentials := credentials rp;
              collectResourceTiming := collectResourceTiming rp |} u Hu Ht).
Qed.

(** C8, amended. For every [RequestParameters] whose URL the host accepts,
    [makeRequest] returns one handle whose credentials flag is true exactly
    when [credentials] is ["include"]. When the registry does not answer
    the URL, the handle is one request on the network, opened once as a
    [GET] of the URL, with the supplied headers attached, in order, and no
    header when [headers] is absent; the request [getJSON] sends has these
    headers followed by [Accept: application/json], the one
    [getArrayBuffer] sends has these headers only, and both carry the same
    flag. When the registry answers the URL, the handle is the mock, which
    keeps the flag and discards the method and the headers. *)
Theorem C8_request_construction (window : Window) (st : ModuleState)
    (rp : RequestParameters) (u : URLRecord) :
  URL window (url rp) = Some u ->
  (exists xhr : Xhr (Called JSON.t),
     makeRequest window st rp = MkJs [] (inr xhr)
     /\ (xhr_withCredentials xhr = Some true
         <-> credentials rp = Some "include")
     /\ (xhr_withCredentials xhr = Some false
         <-> credentials rp <> Some "include"))
  /\ (truthy (mock_body (mockRequest st !! hostname u) (pathname u)) = false ->
      (exists x : XMLHttpRequest (Called JSON.t),
         makeRequest window st rp = MkJs [] (inr (XReal x))
         /\ opened x = [("GET", url rp, true)]
         /\ requestHeaders x = default [] (headers rp)
         /\ (headers rp = None -> requestHeaders x = []))
      /\ (exists x,
            getJSON window st rp record = MkJs [] (inr (XReal x))
            /\ opened x = [("GET", url rp, true)]
            /\ requestHeaders x
               = default [] (headers rp) ++ [("Accept", "application/json")]
            /\ (withCredentials x = true <-> credentials rp = Some "include")
            /\ sent x = 1%nat)
      /\ (exists x,
            getArrayBuffer window st rp record = MkJs [] (inr (XReal x))
            /\ opened x = [("GET", url rp, true)]
            /\ requestHeaders x = default [] (headers rp)
            /\ (withCredentials x = true <-> credentials rp = Some "include")
            /\ sent x = 1%nat))
  /\ (truthy (mock_body (mockRequest st !! hostname u) (pathname u)) = true ->
      exists m : MockXMLHttpRequest (Called JSON.t),
        makeRequest window st rp = MkJs [] (inr (XMock m))
        /\ forall hs,
             makeRequest window st
               {| url := url rp; headers := hs; credentials := credentials rp;
                  collectResourceTiming := collectResourceTiming rp |}
             = MkJs [] (inr (XMock m))).
Proof.
  intros Hu.
  assert (Hflag : forall b : bool,
            b = bool_decide (credentials rp = Some "include") ->
            (Some b = Some true <-> credentials rp = Some "include")
            /\ (Some b = Some false <-> credentials rp <> Some "include")).
  { intros b ->. destruct (bool_decide (credentials rp = Some "include")) eqn:E.
    - apply bool_decide_eq_true in E. split; split; intros H;
        first [done | discriminate | contradiction].
    - apply bool_decide_eq_false in E. split; split; intros H;
        first [done | discriminate | contradiction]. }
  split; [|split].
  - destruct (truthy (mock_body (mockRequest st !! hostname u) (pathname u)))
      eqn:Ht.
    + eexists. split; [apply (makeRequest_mock window st rp u Hu Ht)|].
      by apply Hflag.
    + eexists. split; [apply (makeRequest_real window st rp u Hu Ht)|].
      by apply Hflag.
  - intros Ht. split; [|split].
    + eexists. split; [apply (makeRequest_real window st rp u Hu Ht)|].
      split; [reflexivity|]. split; [reflexivity|]. simpl. by intros ->.
    + eexists. split; [apply (getJSON_real window st rp u record Hu Ht)|].
      split; [reflexivity|]. split; [reflexivity|]. split; [|reflexivity].
      simpl. apply bool_decide_eq_true.
    + eexists. split; [apply (getArrayBuffer_real window st rp u record Hu Ht)|].
      split; [reflexivity|]. split; [reflexivity|]. split; [|reflexivity].
      simpl. apply bool_decide_eq_true.
  - intros Ht. eexists. split; [apply (makeRequest_mock window st rp u Hu Ht)|].
    intros hs. rewrite (makeRequest_mock_any_headers window st rp u hs Hu Ht).
    apply (makeRequest_mock window st rp u Hu Ht).
Qed.

Lemma C8_request_construction_witness :
  let rp := {| url := "http://tiles.example.org/1/2/3.pbf";
               headers := Some [("Authorization", "Bearer t"); ("X-Id", "7")];
               credentials := Some "include";
               collectResourceTiming := None |} in
  exists x,
    getJSON exampleWindow exampleState rp record = MkJs [] (inr (XReal x))
    /\ opened x = [("GET", "http://tiles.example.org/1/2/3.pbf", true)]
    /\ requestHeaders x
       = [("Authorization", "Bearer t"); ("X-Id", "7")]
         ++ [("Accept", "application/json")]
    /\ (withCredentials x = true <-> Some "include" = Some "include")
    /\ sent x = 1%nat.
Proof.
  intros rp.
  destruct (C8_request_construction exampleWindow exampleState rp
              {| protocol := "http:"; hostname := "tiles.example.org";
                 port := ""; pathname := "/1/2/3.pbf"; search := "";
                 hash := "" |}) as (_ & Hnet & _).
  { vm_compute. reflexivity. }
  destruct Hnet as (_ & Hjson & _).
  { vm_compute. reflexivity. }
  exact Hjson.
Defined.

(** ** The registry *)

(** C9. For every registry given to [setMockRequest] and whatever the table
    was before: after the call the table is the argument, and the requests
    made after the call are resolved against the argument and against
    nothing of the previous table. A URL for which the argument has a
    truthy body is answered by the mock with that body, by [makeRequest]
    and by [getJSON]; a URL whose host name or path name the argument does
    not have goes to the network, even when the previous table had an
    entry for it. *)
Theorem C9_setMockRequest_replaces (window : Window) (st : ModuleState)
    (mock : gmap string (gmap string JsVal)) (rp : RequestParameters)
    (u : URLRecord) :
  URL window (url rp) = Some u ->
  mockRequest (setMockRequest mock st) = mock
  /\ (forall paths body,
        mock !! hostname u = Some paths ->
        paths !! pathname u = Some body ->
        truthy body = true ->
        (exists m : MockXMLHttpRequest (Called JSON.t),
           makeRequest window (setMockRequest mock st) rp
           = MkJs [] (inr (XMock m))
           /\ _response m = body)
        /\ (exists m,
              outcome (getJSON window (setMockRequest mock st) rp record)
              = inr (XMock m)
              /\ _response m = body /\ _status m = Some 200))
  /\ ((mock !! hostname u = None
       \/ exists paths, mock !! hostname u = Some paths
                        /\ paths !! pathname u = None) ->
      (exists x : XMLHttpRequest (Called JSON.t),
         makeRequest window (setMockRequest mock st) rp
         = MkJs [] (inr (XReal x)))
      /\ (exists x,
            getJSON window (setMockRequest mock st) rp record
            = MkJs [] (inr (XReal x))
            /\ sent x = 1%nat)).
Proof.
  intros Hu. split; [reflexivity|]. split.
  - intros paths body Hh Hp Ht.
    assert (Hb : mock_body (mockRequest (setMockRequest mock st) !! hostname u)
                   (pathname u) = body).
    { apply (mock_body_entry (setMockRequest mock st) u paths body); assumption. }
    assert (Ht' : truthy (mock_body
                            (mockRequest (setMockRequest mock st) !! hostname u)
                            (pathname u)) = true) by (by rewrite Hb).
    split.
    + eexists.
      split; [apply (makeRequest_mock window _ rp u Hu Ht')|]. exact Hb.
    + rewrite (getJSON_mock window _ rp u record Hu Ht').
      destruct (getJSON_onload_once rp
                  (mock_view
                     {| _url := url rp;
                        _response :=
                          mock_body
                            (mockRequest (setMockRequest mock st) !! hostname u)
                            (pathname u);
                        _withCredentials :=
                          Some (bool_decide (credentials rp = Some "include"));
                        _onloadCallback :=
                          Some (getJSON_onload rp (@record JSON.t));
                        _statusText := None; _status := Some 200 |}))
        as (err & res & H).
      rewrite (H _ record). eexists. split; [reflexivity|].
      split; [exact Hb|reflexivity].
  - intros Hmiss.
    assert (Ht : truthy (mock_body
                           (mockRequest (setMockRequest mock st) !! hostname u)
                           (pathname u)) = false).
    { unfold mock_body. simpl.
      destruct Hmiss as [Hh|[paths [Hh Hp]]]; rewrite Hh; [reflexivity|].
      by rewrite Hp. }
    split; eexists.
    + apply (makeRequest_real window _ rp u Hu Ht).
    + split; [apply (getJSON_real window _ rp u record Hu Ht)|]. reflexivity.
Qed.

Lemma C9_setMockRequest_replaces_witness :
  let mock : gmap string (gmap string JsVal) :=
    {[ "other.example.org" := {[ "/a.json" := VStr "[]" ]} ]} in
  (exists x,
     getJSON exampleWindow (setMockRequest mock exampleState)
       (params "http://example.com/style.json") record
     = MkJs [] (inr (XReal x))
     /\ sent x = 1%nat)
  /\ (exists m,
        outcome (getJSON exampleWindow (setMockRequest mock exampleState)
                   (params "http://other.example.org/a.json") record)
        = inr (XMock m)
        /\ _response m = VStr "[]" /\ _status m = Some 200).
Proof.
  intros mock. split.
  - apply (C9_setMockRequest_replaces exampleWindow exampleState mock
             (params "http://example.com/style.json")
             {| protocol := "http:"; hostname := "example.com"; port := "";
                pathname := "/style.json"; search := ""; hash := "" |}).
    + vm_compute. reflexivity.
    + left. vm_compute. reflexivity.
  - destruct (C9_setMockRequest_replaces exampleWindow exampleState mock
                (params "http://other.example.org/a.json")
                {| protocol := "http:"; hostname := "other.example.org";
                   port := ""; pathname := "/a.json"; search := "";
                   hash := "" |}) as (_ & Hentry & _).
    { vm_compute. reflexivity. }
    destruct (Hentry {[ "/a.json" := VStr "[]" ]} (VStr "[]")) as [_ Hjson].
    + vm_compute. reflexivity.
    + vm_compute. reflexivity.
    + reflexivity.
    + exact Hjson.
Defined.

(** C10. The registry is looked up by the host name and the path name of
    the URL and by nothing else: two requests whose URLs have the same host
    name and the same path name, whatever their protocols, ports, queries
    and fragments, resolve to the same entry of the registry, or both go to
    the network. *)
Theorem C10_lookup_by_hostname_and_pathname (window : Window)
    (st : ModuleState) (rp1 rp2 : RequestParameters) (u1 u2 : URLRecord) :
  URL window (url rp1) = Some u1 ->
  URL window (url rp2) = Some u2 ->
  hostname u1 = hostname u2 ->
  pathname u1 = pathname u2 ->
  exists xhr1 xhr2 : Xhr (Called JSON.t),
    makeRequest window st rp1 = MkJs [] (inr xhr1)
    /\ makeRequest window st rp2 = MkJs [] (inr xhr2)
    /\ mock_entry xhr1 = mock_entry xhr2.
Proof.
  intros H1 H2 Hh Hp.
  destruct (truthy (mock_body (mockRequest st !! hostname u1) (pathname u1)))
    eqn:Ht.
  - pose proof Ht as Ht2. rewrite Hh, Hp in Ht2.
    do 2 eexists. split; [apply (makeRequest_mock window st rp1 u1 H1 Ht)|].
    split; [apply (makeRequest_mock window st rp2 u2 H2 Ht2)|].
    simpl. by rewrite Hh, Hp.
  - pose proof Ht as Ht2. rewrite Hh, Hp in Ht2.
    do 2 eexists. split; [apply (makeRequest_real window st rp1 u1 H1 Ht)|].
    split; [apply (makeRequest_real window st rp2 u2 H2 Ht2)|].
    reflexivity.
Qed.

Lemma C10_lookup_by_hostname_and_pathname_witness :
  exists xhr1 xhr2 : Xhr (Called JSON.t),
    makeRequest exampleWindow exampleState
      (params "http://example.com/style.json?fresh=1") = MkJs [] (inr xhr1)
    /\ makeRequest exampleWindow exampleState
         (params "https://example.com:8443/style.json#layers")
       = MkJs [] (inr xhr2)
    /\ mock_entry xhr1 = mock_entry xhr2.
Proof.
  apply (C10_lookup_by_hostname_and_pathname exampleWindow exampleState
           (params "http://example.com/style.json?fresh=1")
           (params "https://example.com:8443/style.json#layers")
           {| protocol := "http:"; hostname := "example.com"; port := "";
              pathname := "/style.json"; search := "?fresh=1"; hash := "" |}
           {| protocol := "https:"; hostname := "example.com"; port := "8443";
              pathname := "/style.json"; search := ""; hash := "#layers" |}).
  - vm_compute. reflexivity.
  - vm_compute. reflexivity.
  - reflexivity.
  - reflexivity.
Defined.

(** * Further properties of the module *)

(** ** The load handlers, exchange by exchange *)

(** X1. Whatever the completed exchange, the load handler of [getJSON] calls
    the callback exactly once and throws nothing of its own; the call has
    either an error and no value, or a value and no error. *)
Theorem X1_getJSON_onload_exactly_once (rp : RequestParameters) (xhr : XhrView) :
  exists err res,
    (forall Ev (callback : Callback Ev JSON.t),
       getJSON_onload rp callback xhr = callback err res)
    /\ getJSON_onload rp record xhr = MkJs [CallbackArgs err res] (inr tt)
    /\ ((err = None /\ is_Some res) \/ (is_Some err /\ res = None)).
Proof.
  destruct (success_status (status xhr)) eqn:Hs;
    [destruct (truthy (response xhr)) eqn:Ht|].
  - destruct (JSON.parse_text (ToString (response xhr))) as [j|] eqn:Hp.
    + exists None, (Some j). split; [|split].
      * intros Ev callback. by apply getJSON_onload_parsed.
      * by rewrite (getJSON_onload_parsed rp record xhr j).
      * left. by split.
    + exists (Some SyntaxError), None. split; [|split].
      * intros Ev callback. by apply getJSON_onload_malformed.
      * by rewrite getJSON_onload_malformed.
      * right. by split.
  - eexists (Some _), None. split; [|split].
    + intros Ev callback. apply getJSON_onload_http_error. by rewrite Hs, Ht.
    + rewrite getJSON_onload_http_error; [reflexivity|]. by rewrite Hs, Ht.
    + right. by split.
  - eexists (Some _), None. split; [|split].
    + intros Ev callback. apply getJSON_onload_http_error. by rewrite Hs.
    + rewrite getJSON_onload_http_error; [reflexivity|]. by rewrite Hs.
    + right. by split.
Qed.

Lemma success_status_outside (s : Z) :
  ~ (200 <= s < 300) -> success_status (Some s) = false.
Proof.
  intros H. destruct (success_status (Some s)) eqn:E; [|reflexivity].
  apply success_status_spec in E. contradiction.
Qed.

Lemma status_is_outside (s : Z) :
  ~ (200 <= s < 300) -> status_is (Some s) 200 = false.
Proof. intros H. unfold status_is. apply Z.eqb_neq. lia. Qed.

(** X2. When an exchange completes with a status outside [200, 300), the
    callback of [getJSON] is called once, with an [AJAXError] that carries
    the status line, the status and the URL of the request as it was given;
    so is the callback of [getArrayBuffer] whenever the body is one whose
    [byteLength] can be read. *)
Theorem X2_http_error_carries_request_url (rp : RequestParameters)
    (xhr : XhrView) (s : Z) :
  status xhr = Some s ->
  ~ (200 <= s < 300) ->
  getJSON_onload rp record xhr
  = MkJs [CallbackArgs (Some (AJAXError (statusText xhr) (Some s) (url rp))) None]
      (inr tt)
  /\ (forall len, get_byteLength (response xhr) = inr len ->
      getArrayBuffer_onload rp record xhr
      = MkJs [CallbackArgs (Some (AJAXError (statusText xhr) (Some s) (url rp)))
                None] (inr tt)).
Proof.
  intros Hs Hout. split.
  - rewrite getJSON_onload_http_error; [by rewrite Hs|].
    rewrite Hs. by rewrite success_status_outside.
  - intros len Hlen.
    rewrite (getArrayBuffer_onload_http_error rp record xhr len Hlen).
    + by rewrite Hs.
    + rewrite Hs, status_is_outside by done. apply andb_false_r.
    + rewrite Hs. by rewrite success_status_outside.
Qed.

Lemma X2_http_error_carries_request_url_witness :
  getJSON_onload (params "http://example.com/a.json?v=1#top") record
    (real_view {| tr_status := 404; tr_statusText := "Not Found";
                  tr_response := VStr "<html>"; tr_headers := fun _ => None |})
  = MkJs [CallbackArgs
            (Some (AJAXError (Some "Not Found") (Some 404)
                     "http://example.com/a.json?v=1#top")) None] (inr tt).
Proof.
  apply (X2_http_error_carries_request_url
           (params "http://example.com/a.json?v=1#top")
           (real_view {| tr_status := 404; tr_statusText := "Not Found";
                         tr_response := VStr "<html>";
                         tr_headers := fun _ => None |}) 404).
  - reflexivity.
  - lia.
Defined.

(** X3. A success status does not make a success of [getJSON] by itself:
    when the status is in [200, 300) and the body is empty, the callback is
    called once with an [AJAXError] that carries that success status, and
    [JSON.parse] is not tried. *)
Theorem X3_getJSON_empty_body_is_an_error (rp : RequestParameters)
    (xhr : XhrView) (s : Z) :
  status xhr = Some s ->
  200 <= s < 300 ->
  truthy (response xhr) = false ->
  getJSON_onload rp record xhr
  = MkJs [CallbackArgs (Some (AJAXError (statusText xhr) (Some s) (url rp))) None]
      (inr tt).
Proof.
  intros Hs Hin Ht.
  rewrite getJSON_onload_http_error; [by rewrite Hs|].
  rewrite Ht. apply andb_false_r.
Qed.

Lemma X3_getJSON_empty_body_is_an_error_witness :
  getJSON_onload (params "http://example.com/a.json") record
    (real_view {| tr_status := 204; tr_statusText := "No Content";
                  tr_response := VStr ""; tr_headers := fun _ => None |})
  = MkJs [CallbackArgs
            (Some (AJAXError (Some "No Content") (Some 204)
                     "http://example.com/a.json")) None] (inr tt).
Proof.
  apply (X3_getJSON_empty_body_is_an_error (params "http://example.com/a.json")
           (real_view {| tr_status := 204; tr_statusText := "No Content";
                         tr_response := VStr "";
                         tr_headers := fun _ => None |}) 204).
  - reflexivity.
  - lia.
  - reflexivity.
Defined.

(** X4. On a network exchange that ends with a buffer, whatever its status
    and its length, the load handler of [getArrayBuffer] calls the callback
    exactly once and throws nothing: with the empty-body error when the
    status is exactly 200 and the buffer has no byte; otherwise with the
    buffer and the two headers when the status is in [200, 300), an empty
    buffer included; otherwise with an [AJAXError]. *)
Theorem X4_getArrayBuffer_network_classification (rp : RequestParameters)
    (r : TransportResult) (bytes : list byte) :
  tr_response r = VArrayBuffer bytes ->
  getArrayBuffer_onload rp record (real_view r)
  = MkJs [buffer_outcome rp r bytes] (inr tt).
Proof.
  intros Hr. unfold buffer_outcome.
  assert (Hlen : get_byteLength (response (real_view r))
                 = inr (Some (Z.of_nat (List.length bytes))))
    by (simpl; by rewrite Hr).
  assert (Htruthy : truthy (response (real_view r)) = true)
    by (simpl; by rewrite Hr).
  destruct (match bytes with [] => true | _ :: _ => false end
            && (tr_status r =? 200)) eqn:He.
  - apply andb_true_iff in He as [Hb Hs]. apply Z.eqb_eq in Hs.
    destruct bytes; [|discriminate].
    by apply getArrayBuffer_network_empty_200.
  - assert (He' : bool_decide (Some (Z.of_nat (List.length bytes)) = Some 0)
                  && status_is (status (real_view r)) 200 = false).
    { destruct bytes as [|b bytes]; simpl in *.
      - rewrite He. reflexivity.
      - reflexivity. }
    destruct ((200 <=? tr_status r) && (tr_status r <? 300)) eqn:Hok.
    + rewrite (getArrayBuffer_onload_success rp record (real_view r) _
                 (tr_headers r) Hlen He'); try done.
      simpl. by rewrite Hr.
    + rewrite (getArrayBuffer_onload_http_error rp record (real_view r) _
                 Hlen He'); [reflexivity|].
      unfold success_status. simpl. by rewrite Hok.
Qed.

Lemma X4_getArrayBuffer_network_classification_witness :
  getArrayBuffer_onload (params "http://example.com/t.pbf") record
    (real_view {| tr_status := 204; tr_statusText := "No Content";
                  tr_response := VArrayBuffer [];
                  tr_headers := fun _ => None |})
  = MkJs [CallbackArgs None
            (Some {| data := VArrayBuffer []; cacheControl := None;
                     expires := None |})] (inr tt).
Proof.
  apply (X4_getArrayBuffer_network_classification
           (params "http://example.com/t.pbf")
           {| tr_status := 204; tr_statusText := "No Content";
              tr_response := VArrayBuffer [];
              tr_headers := fun _ => None |} []).
  reflexivity.
Defined.

(** X5. The load handler of [getArrayBuffer] throws in two situations and in
    no other: the body is [null] or [undefined]; or the exchange passes the
    tests of a success (a status in [200, 300), a truthy body, and not the
    empty body on status 200) on a handle that has no [getResponseHeader].
    When it throws, it has not called the callback. *)
Theorem X5_getArrayBuffer_onload_throws_iff (rp : RequestParameters)
    (xhr : XhrView) :
  ((exists e, outcome (getArrayBuffer_onload rp record xhr) = inl e)
   <-> (response xhr = VNull \/ response xhr = VUndefined
        \/ (getResponseHeader xhr = None
            /\ success_status (status xhr) = true
            /\ truthy (response xhr) = true
            /\ ~ (get_byteLength (response xhr) = inr (Some 0)
                  /\ status xhr = Some 200))))
  /\ (forall e, outcome (getArrayBuffer_onload rp record xhr) = inl e ->
        events (getArrayBuffer_onload rp record xhr) = []).
Proof.
  destruct (get_byteLength (response xhr)) as [e|len] eqn:Hb.
  { rewrite (getArrayBuffer_onload_no_body rp record xhr e Hb). simpl.
    split; [|reflexivity]. split; [intros _|intros _; by eexists].
    destruct (response xhr); simpl in Hb; try discriminate; auto. }
  assert (Hnn : response xhr <> VNull /\ response xhr <> VUndefined).
  { split; intros E; rewrite E in Hb; discriminate. }
  destruct (bool_decide (len = Some 0) && status_is (status xhr) 200) eqn:He.
  { apply andb_true_iff in He as [Hl H200].
    apply bool_decide_eq_true in Hl. subst len.
    assert (status xhr = Some 200) as Hs.
    { unfold status_is in H200. destruct (status xhr) as [v|]; [|discriminate].
      apply Z.eqb_eq in H200. by subst v. }
    rewrite (getArrayBuffer_onload_empty_200 rp record xhr Hb Hs). simpl.
    split; [|discriminate]. split.
    - intros [e He]. discriminate.
    - intros [E|[E|(_ & _ & _ & Hn)]]; [by destruct Hnn..|].
      exfalso. apply Hn. by split. }
  assert (Hne : ~ (@inr JsError (option Z) len = inr (Some 0)
                   /\ status xhr = Some 200)).
  { intros [[= Hl] Hs]. subst len. rewrite Hs in He. discriminate. }
  destruct (success_status (status xhr) && truthy (response xhr)) eqn:Hok.
  - apply andb_true_iff in Hok as [Hs Ht].
    destruct (getResponseHeader xhr) as [hdr|] eqn:Hh.
    + rewrite (getArrayBuffer_onload_success rp record xhr len hdr Hb He Hs Ht Hh).
      simpl. split; [|discriminate]. split.
      * intros [e E]. discriminate.
      * intros [E|[E|(Hnone & _)]]; [by destruct Hnn..|discriminate].
    + rewrite (getArrayBuffer_onload_no_method rp record xhr len Hb He Hs Ht Hh).
      simpl. split; [|reflexivity]. split; [intros _|intros _; by eexists].
      right. right. by repeat split.
  - rewrite (getArrayBuffer_onload_http_error rp record xhr len Hb He Hok).
    simpl. split; [|discriminate]. split.
    + intros [e E]. discriminate.
    + intros [E|[E|(_ & Hs & Ht & _)]]; [by destruct Hnn..|].
      rewrite Hs, Ht in Hok. discriminate.
Qed.

(** ** Requests that never reach a handle, or never reach the network *)

(** X6. When the host rejects the URL, [getJSON], [getArrayBuffer] and
    [getImage] throw the error of the [URL] constructor out of the call
    itself: no handle is returned, no request is made and the callback is
    never called. *)
Theorem X6_invalid_url_throws_synchronously (window : Window) (st : ModuleState)
    (rp : RequestParameters) :
  URL window (url rp) = None ->
  getJSON window st rp record = MkJs [] (inl (TypeError "Invalid URL"))
  /\ getArrayBuffer window st rp record = MkJs [] (inl (TypeError "Invalid URL"))
  /\ getImage window st rp (@record HTMLImageElement)
     = MkJs [] (inl (TypeError "Invalid URL")).
Proof.
  intros Hu. unfold getImage, getJSON, getArrayBuffer.
  rewrite !(makeRequest_invalid_url window st rp Hu). by repeat split.
Qed.

Lemma X6_invalid_url_throws_synchronously_witness :
  getJSON exampleWindow exampleState (params "style.json") record
  = MkJs [] (inl (TypeError "Invalid URL")).
Proof.
  apply (X6_invalid_url_throws_synchronously exampleWindow exampleState
           (params "style.json")).
  reflexivity.
Defined.

(** X7. A URL whose host name is not in the registry, or whose path name is
    not under its host name, is requested on the network: [getJSON] and
    [getArrayBuffer] return a handle that was sent once, and nothing has
    been delivered yet. With the registry the module starts with, that is
    every URL. *)
Theorem X7_missing_entry_goes_to_network (window : Window) (st : ModuleState)
    (rp : RequestParameters) (u : URLRecord) :
  URL window (url rp) = Some u ->
  (mockRequest st !! hostname u = None
   \/ exists paths, mockRequest st !! hostname u = Some paths
                    /\ paths !! pathname u = None) ->
  (exists x, getJSON window st rp record = MkJs [] (inr (XReal x))
             /\ opened x = [("GET", url rp, true)] /\ sent x = 1%nat)
  /\ (exists x, getArrayBuffer window st rp record = MkJs [] (inr (XReal x))
                /\ opened x = [("GET", url rp, true)] /\ sent x = 1%nat).
Proof.
  intros Hu Hmiss.
  assert (Ht : truthy (mock_body (mockRequest st !! hostname u) (pathname u))
               = false).
  { destruct Hmiss as [Hh|[paths [Hh Hp]]]; unfold mock_body; rewrite Hh;
      [reflexivity|]. by rewrite Hp. }
  split; eexists.
  - split; [apply (getJSON_real window st rp u record Hu Ht)|]. by split.
  - split; [apply (getArrayBuffer_real window st rp u record Hu Ht)|]. by split.
Qed.

Lemma X7_missing_entry_goes_to_network_witness :
  exists x,
    getJSON exampleWindow initialState
      (params "http://example.com/style.json") record
    = MkJs [] (inr (XReal x))
    /\ opened x = [("GET", "http://example.com/style.json", true)]
    /\ sent x = 1%nat.
Proof.
  apply (X7_missing_entry_goes_to_network exampleWindow initialState
           (params "http://example.com/style.json")
           {| protocol := "http:"; hostname := "example.com"; port := "";
              pathname := "/style.json"; search := ""; hash := "" |}).
  - reflexivity.
  - left. reflexivity.
Defined.

(** The load handler of [getJSON] reads the request parameters for their
    URL only. *)
Lemma getJSON_onload_url_only {Ev} (rp rp' : RequestParameters)
    (callback : Callback Ev JSON.t) :
  url rp = url rp' -> getJSON_onload rp callback = getJSON_onload rp' callback.
Proof. intros H. unfold getJSON_onload. by rewrite H. Qed.

(** X8. A request that the mock answers takes nothing from the headers and
    the credentials of its parameters: two [getJSON] calls for the same URL
    get the same calls of the callback and a mock with the same body and
    status, whatever their headers and credentials are; no request is
    opened on the network. *)
Theorem X8_mock_ignores_headers_and_credentials (window : Window)
    (st : ModuleState) (rp rp' : RequestParameters) (u : URLRecord) :
  url rp = url rp' ->
  URL window (url rp) = Some u ->
  truthy (mock_body (mockRequest st !! hostname u) (pathname u)) = true ->
  events (getJSON window st rp record) = events (getJSON window st rp' record)
  /\ exists m m',
       outcome (getJSON window st rp record) = inr (XMock m)
       /\ outcome (getJSON window st rp' record) = inr (XMock m')
       /\ _response m = _response m' /\ _status m = _status m'
       /\ _url m = _url m'.
Proof.
  intros Hurl Hu Ht.
  pose proof Hu as Hu'. rewrite Hurl in Hu'.
  rewrite (getJSON_mock window st rp u record Hu Ht).
  rewrite (getJSON_mock window st rp' u record Hu' Ht).
  rewrite (getJSON_onload_url_only rp rp' record Hurl).
  unfold mock_view. cbn [_status _statusText _response].
  set (v := Build_XhrView _ _ _ _).
  destruct (getJSON_onload_once rp' v) as (err & res & H).
  rewrite (H _ record). unfold mbind, Js_bind, bind, record, emit. simpl.
  split; [reflexivity|]. do 2 eexists. split; [reflexivity|].
  split; [reflexivity|]. split; [reflexivity|]. split; [reflexivity|].
  simpl. exact Hurl.
Qed.

Lemma X8_mock_ignores_headers_and_credentials_witness :
  events (getJSON exampleWindow exampleState
            (params "http://example.com/style.json") record)
  = events (getJSON exampleWindow exampleState
              {| url := "http://example.com/style.json";
                 headers := Some [("Authorization", "Bearer t")];
                 credentials := Some "include";
                 collectResourceTiming := None |} record).
Proof.
  apply (X8_mock_ignores_headers_and_credentials exampleWindow exampleState
           (params "http://example.com/style.json")
           {| url := "http://example.com/style.json";
              headers := Some [("Authorization", "Bearer t")];
              credentials := Some "include";
              collectResourceTiming := None |}
           {| protocol := "http:"; hostname := "example.com"; port := "";
              pathname := "/style.json"; search := ""; hash := "" |}).
  - reflexivity.
  - vm_compute. reflexivity.
  - vm_compute. reflexivity.
Defined.

(** X9. [MockXMLHttpRequest.send] on a mock that holds a falsy body, with
    the load handler of [getJSON] installed: the status becomes 404, the
    status line becomes the URL of the mock followed by
    [ mock data is error!], and the callback is called once with the
    [AJAXError] that carries them. *)
Theorem X9_mock_send_without_body (rp : RequestParameters) (u : string)
    (body : JsVal) (wc : option bool) :
  truthy body = false ->
  MockXMLHttpRequest_send
    {| _url := u; _response := body; _withCredentials := wc;
       _onloadCallback := Some (getJSON_onload rp record);
       _statusText := None; _status := None |}
  = MkJs [CallbackArgs
            (Some (AJAXError (Some (u ++ " mock data is error!")%string)
                     (Some 404) (url rp))) None]
      (inr {| _url := u; _response := body; _withCredentials := wc;
              _onloadCallback := Some (getJSON_onload rp record);
              _statusText := Some (u ++ " mock data is error!")%string;
              _status := Some 404 |}).
Proof.
  intros Ht. unfold MockXMLHttpRequest_send. cbn [_response]. rewrite Ht.
  cbn [_onloadCallback _url _withCredentials _statusText _status].
  rewrite getJSON_onload_http_error; [reflexivity|]. reflexivity.
Qed.

Lemma X9_mock_send_without_body_witness :
  events (MockXMLHttpRequest_send
            {| _url := "http://example.com/a.json"; _response := VStr "";
               _withCredentials := Some false;
               _onloadCallback :=
                 Some (getJSON_onload (params "http://example.com/a.json") record);
               _statusText := None; _status := None |})
  = [CallbackArgs
       (Some (AJAXError (Some "http://example.com/a.json mock data is error!")
                (Some 404) "http://example.com/a.json")) None].
Proof.
  rewrite (X9_mock_send_without_body (params "http://example.com/a.json")
             "http://example.com/a.json" (VStr "") (Some false)).
  - reflexivity.
  - reflexivity.
Defined.

(** X10. On the network path [getJSON] and [getArrayBuffer] return before
    anything is delivered, [getArrayBuffer] having asked for the
    [arraybuffer] response type and [getJSON] for none. When the host then
    reports that the exchange failed, the callback is called once with a
    plain [Error] whose message is the status line, not with an
    [AJAXError]; when it reports completion, the load handler runs. *)
Theorem X10_network_failure_delivers_plain_error (window : Window)
    (st : ModuleState) (rp : RequestParameters) (u : URLRecord) :
  URL window (url rp) = Some u ->
  truthy (mock_body (mockRequest st !! hostname u) (pathname u)) = false ->
  (exists x,
     getJSON window st rp record = MkJs [] (inr (XReal x))
     /\ responseType x = ""
     /\ forall r,
          fire_error x r
          = MkJs [CallbackArgs (Some (Error (Some (tr_statusText r)))) None]
              (inr tt)
          /\ fire_load x r = getJSON_onload rp record (real_view r))
  /\ (exists x,
        getArrayBuffer window st rp record = MkJs [] (inr (XReal x))
        /\ responseType x = "arraybuffer"
        /\ forall r,
             fire_error x r
             = MkJs [CallbackArgs (Some (Error (Some (tr_statusText r)))) None]
                 (inr tt)
             /\ fire_load x r = getArrayBuffer_onload rp record (real_view r)).
Proof.
  intros Hu Ht. split; eexists.
  - split; [apply (getJSON_real window st rp u record Hu Ht)|].
    split; [reflexivity|]. intros r. by split.
  - split; [apply (getArrayBuffer_real window st rp u record Hu Ht)|].
    split; [reflexivity|]. intros r. by split.
Qed.

Lemma X10_network_failure_delivers_plain_error_witness :
  exists x,
    getArrayBuffer exampleWindow exampleState
      (params "http://tiles.example.org/1/2/3.pbf") record
    = MkJs [] (inr (XReal x))
    /\ responseType x = "arraybuffer"
    /\ forall r,
         fire_error x r
         = MkJs [CallbackArgs (Some (Error (Some (tr_statusText r)))) None]
             (inr tt)
         /\ fire_load x r
            = getArrayBuffer_onload
                (params "http://tiles.example.org/1/2/3.pbf") record
                (real_view r).
Proof.
  apply (X10_network_failure_delivers_plain_error exampleWindow exampleState
           (params "http://tiles.example.org/1/2/3.pbf")
           {| protocol := "http:"; hostname := "tiles.example.org"; port := "";
              pathname := "/1/2/3.pbf"; search := ""; hash := "" |}).
  - vm_compute. reflexivity.
  - vm_compute. reflexivity.
Defined.

(** ** [getImage], from the exchange to the callback *)

(** X11. On the network [getImage] returns the handle of its buffer fetch.
    When that exchange ends with a status in [200, 300) and at least one
    byte, the load event on the handle does not call the callback: it asks
    the host for one object URL, for the blob of these bytes, and hands the
    host an image whose source is that URL, which carries the two cache
    headers and the load handler of [getImage]. When the host has loaded
    that image, its handler calls the callback once with it and then
    revokes that object URL, and no other. *)
Theorem X11_getImage_object_url_is_revoked_after_callback (window : Window)
    (st : ModuleState) (rp : RequestParameters) (u : URLRecord) :
  URL window (url rp) = Some u ->
  truthy (mock_body (mockRequest st !! hostname u) (pathname u)) = false ->
  exists x,
    getImage window st rp (@record HTMLImageElement) = MkJs [] (inr (XReal x))
    /\ forall (r : TransportResult) (bytes : list byte),
         200 <= tr_status r < 300 ->
         tr_response r = VArrayBuffer bytes ->
         bytes <> [] ->
         let blobURL := createObjectURL window (VArrayBuffer bytes) in
         exists img,
           fire_load x r
           = MkJs [CreateObjectURL (VArrayBuffer bytes) blobURL;
                   ImageLoading img] (inr tt)
           /\ img_element img
              = {| img_src := blobURL;
                   img_cacheControl := tr_headers r "Cache-Control";
                   img_expires := tr_headers r "Expires" |}
           /\ fire_image_load img
              = MkJs [FromCallback (CallbackArgs None (Some (img_element img)));
                      RevokeObjectURL blobURL] (inr tt).
Proof.
  intros Hu Ht. eexists.
  split; [apply (getImage_real window st rp u record Hu Ht)|].
  intros r bytes Hs Hr Hne blobURL. unfold fire_load. cbn [onload].
  rewrite (getArrayBuffer_onload_success rp _ (real_view r)
             (Some (Z.of_nat (List.length bytes))) (tr_headers r)).
  - cbn [response real_view]. rewrite Hr.
    rewrite (getImage_callback_data window record _
               (Some (Z.of_nat (List.length bytes)))) by reflexivity.
    assert (Hb : byteLength_truthy (Some (Z.of_nat (List.length bytes))) = true).
    { destruct bytes; [done|]. reflexivity. }
    rewrite Hb. eexists. split; [reflexivity|]. split; reflexivity.
  - simpl. by rewrite Hr.
  - apply andb_false_iff. left. apply bool_decide_eq_false. intros [= H].
    destruct bytes; [done|]. simpl in H. lia.
  - simpl. by apply success_status_spec.
  - simpl. by rewrite Hr.
  - reflexivity.
Qed.

Lemma X11_getImage_object_url_is_revoked_after_callback_witness :
  exists x,
    getImage exampleWindow exampleState
      (params "http://tiles.example.org/a.png") (@record HTMLImageElement)
    = MkJs [] (inr (XReal x))
    /\ exists img,
         fire_load x {| tr_status := 200; tr_statusText := "OK";
                        tr_response := VArrayBuffer [x89; x50];
                        tr_headers := fun _ => None |}
         = MkJs [CreateObjectURL (VArrayBuffer [x89; x50])
                   "blob:http://example.com/0";
                 ImageLoading img] (inr tt)
         /\ img_element img
            = {| img_src := "blob:http://example.com/0";
                 img_cacheControl := None; img_expires := None |}
         /\ fire_image_load img
            = MkJs [FromCallback (CallbackArgs None (Some (img_element img)));
                    RevokeObjectURL "blob:http://example.com/0"] (inr tt).
Proof.
  destruct (X11_getImage_object_url_is_revoked_after_callback exampleWindow
              exampleState (params "http://tiles.example.org/a.png")
              {| protocol := "http:"; hostname := "tiles.example.org";
                 port := ""; pathname := "/a.png"; search := ""; hash := "" |})
    as (x & Hx & Hload).
  { vm_compute. reflexivity. }
  { vm_compute. reflexivity. }
  exists x. split; [exact Hx|].
  apply (Hload {| tr_status := 200; tr_statusText := "OK";
                  tr_response := VArrayBuffer [x89; x50];
                  tr_headers := fun _ => None |} [x89; x50]).
  - simpl. lia.
  - reflexivity.
  - discriminate.
Defined.

(** X12. What [getImage] does with a buffer of zero bytes depends on the
    status. On status 200 the load event on the handle passes the
    empty-body error of the buffer fetch to the callback and does nothing
    else: no image is handed to the host. On any other status in
    [200, 300) the only thing it does is hand the host an image whose
    source is the transparent pixel: no object URL is asked for; and when
    that image has loaded, the callback is called with it and
    [revokeObjectURL] is called on the transparent pixel's own URL. *)
Theorem X12_getImage_empty_buffer (window : Window) (st : ModuleState)
    (rp : RequestParameters) (u : URLRecord) :
  URL window (url rp) = Some u ->
  truthy (mock_body (mockRequest st !! hostname u) (pathname u)) = false ->
  exists x,
    getImage window st rp (@record HTMLImageElement) = MkJs [] (inr (XReal x))
    /\ forall r : TransportResult,
         tr_response r = VArrayBuffer [] ->
         (tr_status r = 200 ->
          fire_load x r
          = MkJs [FromCallback
                    (CallbackArgs
                       (Some (Error
                                (Some "http status 200 returned without content.")))
                       None)] (inr tt))
         /\ (200 <= tr_status r < 300 -> tr_status r <> 200 ->
             exists img,
               fire_load x r = MkJs [ImageLoading img] (inr tt)
               /\ img_element img
                  = {| img_src := transparentPngUrl;
                       img_cacheControl := tr_headers r "Cache-Control";
                       img_expires := tr_headers r "Expires" |}
               /\ fire_image_load img
                  = MkJs [FromCallback
                            (CallbackArgs None (Some (img_element img)));
                          RevokeObjectURL transparentPngUrl] (inr tt)).
Proof.
  intros Hu Ht. eexists.
  split; [apply (getImage_real window st rp u record Hu Ht)|].
  intros r Hr. unfold fire_load. cbn [onload]. split.
  - intros Hs. rewrite getArrayBuffer_onload_empty_200; [reflexivity| |].
    + simpl. by rewrite Hr.
    + simpl. by rewrite Hs.
  - intros Hs Hne.
    rewrite (getArrayBuffer_onload_success rp _ (real_view r) (Some 0)
               (tr_headers r)).
    + cbn [response real_view]. rewrite Hr.
      rewrite (getImage_callback_data window record _ (Some 0))
        by reflexivity.
      eexists. split; [reflexivity|]. split; reflexivity.
    + simpl. by rewrite Hr.
    + apply andb_false_iff. right. simpl. by apply Z.eqb_neq.
    + simpl. by apply success_status_spec.
    + simpl. by rewrite Hr.
    + reflexivity.
Qed.

Lemma X12_getImage_empty_buffer_witness :
  exists x,
    getImage exampleWindow exampleState
      (params "http://tiles.example.org/a.png") (@record HTMLImageElement)
    = MkJs [] (inr (XReal x))
    /\ fire_load x {| tr_status := 200; tr_statusText := "OK";
                      tr_response := VArrayBuffer [];
                      tr_headers := fun _ => None |}
       = MkJs [FromCallback
                 (CallbackArgs
                    (Some (Error
                             (Some "http status 200 returned without content.")))
                    None)] (inr tt)
    /\ exists img,
         fire_load x {| tr_status := 206; tr_statusText := "Partial Content";
                        tr_response := VArrayBuffer [];
                        tr_headers := fun _ => None |}
         = MkJs [ImageLoading img] (inr tt)
         /\ img_element img
            = {| img_src := transparentPngUrl; img_cacheControl := None;
                 img_expires := None |}
         /\ fire_image_load img
            = MkJs [FromCallback (CallbackArgs None (Some (img_element img)));
                    RevokeObjectURL transparentPngUrl] (inr tt).
Proof.
  destruct (X12_getImage_empty_buffer exampleWindow exampleState
              (params "http://tiles.example.org/a.png")
              {| protocol := "http:"; hostname := "tiles.example.org";
                 port := ""; pathname := "/a.png"; search := ""; hash := "" |})
    as (x & Hx & Hload).
  { vm_compute. reflexivity. }
  { vm_compute. reflexivity. }
  exists x. split; [exact Hx|]. split.
  - apply (Hload {| tr_status := 200; tr_statusText := "OK";
                    tr_response := VArrayBuffer [];
                    tr_headers := fun _ => None |}); reflexivity.
  - apply (Hload {| tr_status := 206; tr_statusText := "Partial Content";
                    tr_response := VArrayBuffer [];
                    tr_headers := fun _ => None |}).
    + reflexivity.
    + simpl. lia.
    + simpl. lia.
Defined.

(** ** [getVideo] and the order of the URLs *)

Lemma existsb_Permutation {A} (f : A -> bool) (l l' : list A) :
  Permutation l l' -> existsb f l = existsb f l'.
Proof.
  induction 1 as [|x l l' _ IH|x y l|l l' l'' _ IH _ IH']; simpl.
  - reflexivity.
  - by rewrite IH.
  - destruct (f x), (f y); reflexivity.
  - by rewrite IH.
Qed.

(** X13. [getVideo] makes as many sources as it is given URLs, and its
    cross-origin mode does not depend on the order in which the URLs come:
    two lists that are permutations of each other give the same mode and
    the same sources up to order. *)
Theorem X13_getVideo_order_independent (window : Window)
    (urls urls' : list string) :
  Permutation urls urls' ->
  List.length (children (getVideo window urls)) = List.length urls
  /\ crossOrigin (getVideo window urls) = crossOrigin (getVideo window urls')
  /\ Permutation (children (getVideo window urls))
       (children (getVideo window urls')).
Proof.
  intros Hp. unfold getVideo. rewrite !getVideo_loop. simpl.
  split; [apply length_map|]. split.
  - by rewrite (existsb_Permutation _ urls urls' Hp).
  - by apply Permutation_map.
Qed.

Lemma X13_getVideo_order_independent_witness :
  crossOrigin (getVideo exampleWindow ["http://other-origin/a.mp4"; "/b.mp4"])
  = crossOrigin (getVideo exampleWindow ["/b.mp4"; "http://other-origin/a.mp4"]).
Proof.
  apply (X13_getVideo_order_independent exampleWindow
           ["http://other-origin/a.mp4"; "/b.mp4"]
           ["/b.mp4"; "http://other-origin/a.mp4"]).
  apply perm_swap.
Defined.

(** ** How the errors print *)

(** X15. The [AJAXError] that [getJSON] delivers for a network exchange
    with a status outside [200, 300) prints as the name of the class, the
    status line, the status in decimal between parentheses, and the URL of
    the request. *)
Theorem X15_AJAXError_toString (rp : RequestParameters) (r : TransportResult) :
  ~ (200 <= tr_status r < 300) ->
  exists message status_ url_,
    getJSON_onload rp record (real_view r)
    = MkJs [CallbackArgs (Some (AJAXError message status_ url_)) None] (inr tt)
    /\ AJAXError_toString message status_ url_
       = ("AJAXError: " ++ tr_statusText r ++ " (" ++ pretty (tr_status r)
          ++ "): " ++ url rp)%string.
Proof.
  intros Hout. do 3 eexists. split.
  - rewrite getJSON_onload_http_error; [reflexivity|].
    simpl. by rewrite success_status_outside.
  - reflexivity.
Qed.

Lemma X15_AJAXError_toString_witness :
  exists message status_ url_,
    getJSON_onload (params "http://example.com/a.json") record
      (real_view {| tr_status := 503; tr_statusText := "Service Unavailable";
                    tr_response := VStr ""; tr_headers := fun _ => None |})
    = MkJs [CallbackArgs (Some (AJAXError message status_ url_)) None] (inr tt)
    /\ AJAXError_toString message status_ url_
       = "AJAXError: Service Unavailable (503): http://example.com/a.json".
Proof.
  apply (X15_AJAXError_toString (params "http://example.com/a.json")
           {| tr_status := 503; tr_statusText := "Service Unavailable";
              tr_response := VStr ""; tr_headers := fun _ => None |}).
  simpl. lia.
Defined.

(** ** Bodies of the registry that are not text *)

(** X16. A body of the registry that is an object is never handed to the
    callback of [getJSON] as it is: [JSON.parse] reads its string form, and
    the callback is called once with what that gives. For a plain object,
    which prints as [[object Object]], and for an [ArrayBuffer], that is
    the [SyntaxError]; for an object whose string form is JSON text, such
    as the array [[5]], it is the value of that text. *)
Theorem X16_mock_object_body_is_parsed_from_its_string_form (window : Window)
    (st : ModuleState) (rp : RequestParameters) (u : URLRecord)
    (paths : gmap string JsVal) (body : JsVal) :
  URL window (url rp) = Some u ->
  mockRequest st !! hostname u = Some paths ->
  paths !! pathname u = Some body ->
  (forall str len,
     body = VObject str len ->
     events (getJSON window st rp record)
     = [match JSON.parse_text str with
        | Some j => CallbackArgs None (Some j)
        | None => CallbackArgs (Some SyntaxError) None
        end])
  /\ ((exists len, body = VObject "[object Object]" len)
      \/ (exists bytes, body = VArrayBuffer bytes) ->
      events (getJSON window st rp record)
      = [CallbackArgs (Some SyntaxError) None]).
Proof.
  intros Hu Hh Hp.
  pose proof (mock_body_entry st u paths body Hh Hp) as Hb.
  assert (Hobj : truthy body = true ->
                 events (getJSON window st rp record)
                 = [match JSON.parse_text (ToString body) with
                    | Some j => CallbackArgs None (Some j)
                    | None => CallbackArgs (Some SyntaxError) None
                    end]).
  { intros Ht. rewrite <- Hb in Ht.
    rewrite (getJSON_mock window st rp u record Hu Ht). rewrite Hb.
    destruct (JSON.parse_text (ToString body)) as [j|] eqn:Hj.
    - rewrite (getJSON_onload_parsed rp record _ j);
        [reflexivity|reflexivity| |exact Hj].
      simpl. by rewrite <- Hb.
    - rewrite getJSON_onload_malformed; [reflexivity|reflexivity| |exact Hj].
      simpl. by rewrite <- Hb. }
  split.
  - intros str len ->. by apply Hobj.
  - intros [[len ->]|[bytes ->]]; by rewrite Hobj.
Qed.

Lemma X16_mock_object_body_is_parsed_from_its_string_form_witness :
  events (getJSON exampleWindow
            (setMockRequest
               {[ "example.com" := {[ "/five.json" := VObject "5" None ]} ]}
               initialState)
            (params "http://example.com/five.json") record)
  = [CallbackArgs None (Some (JSON.JNumber "5"))].
Proof.
  destruct (X16_mock_object_body_is_parsed_from_its_string_form exampleWindow
              (setMockRequest
                 {[ "example.com" := {[ "/five.json" := VObject "5" None ]} ]}
                 initialState)
              (params "http://example.com/five.json")
              {| protocol := "http:"; hostname := "example.com"; port := "";
                 pathname := "/five.json"; search := ""; hash := "" |}
              {[ "/five.json" := VObject "5" None ]} (VObject "5" None))
    as [Hobj _].
  - vm_compute. reflexivity.
  - vm_compute. reflexivity.
  - vm_compute. reflexivity.
  - exact (Hobj "5" None eq_refl).
Defined.

(** X17. [getArrayBuffer] answered by the mock never delivers a success.
    For every entry with a truthy body: when the [byteLength] of the body
    is 0 (a buffer or a typed array without bytes) the callback is called
    once, with the empty-body error; for every other body the call of
    [getArrayBuffer] throws the [TypeError] of the missing
    [getResponseHeader] and the callback is not called. *)
Theorem X17_mock_getArrayBuffer_never_succeeds (window : Window)
    (st : ModuleState) (rp : RequestParameters) (u : URLRecord)
    (paths : gmap string JsVal) (body : JsVal) :
  URL window (url rp) = Some u ->
  mockRequest st !! hostname u = Some paths ->
  paths !! pathname u = Some body ->
  truthy body = true ->
  (get_byteLength body = inr (Some 0) ->
   events (getArrayBuffer window st rp record)
   = [CallbackArgs
        (Some (Error (Some "http status 200 returned without content."))) None]
   /\ exists m, outcome (getArrayBuffer window st rp record) = inr (XMock m))
  /\ (get_byteLength body <> inr (Some 0) ->
      getArrayBuffer window st rp record
      = MkJs [] (inl (TypeError "xhr.getResponseHeader is not a function"))).
Proof.
  intros Hu Hh Hp Ht.
  pose proof (mock_body_entry st u paths body Hh Hp) as Hb.
  pose proof Ht as Ht'. rewrite <- Hb in Ht'.
  rewrite (getArrayBuffer_mock window st rp u record Hu Ht'). rewrite Hb.
  split.
  - intros H0. rewrite getArrayBuffer_onload_empty_200; [|exact H0|reflexivity].
    split; [reflexivity|]. by eexists.
  - intros Hne.
    destruct (truthy_has_byteLength body Ht) as [len Hlen].
    erewrite (getArrayBuffer_onload_no_method rp record _ len);
      [reflexivity|exact Hlen| |reflexivity|exact Ht|reflexivity].
    apply andb_false_iff. left. apply bool_decide_eq_false.
    intros ->. by apply Hne.
Qed.

Lemma X17_mock_getArrayBuffer_never_succeeds_witness :
  let st :=
    setMockRequest
      {[ "example.com" := {[ "/typed.bin" := VObject "" (Some 0);
                              "/list.bin" := VObject "5" None ]} ]}
      initialState in
  events (getArrayBuffer exampleWindow st
            (params "http://example.com/typed.bin") record)
  = [CallbackArgs
       (Some (Error (Some "http status 200 returned without content."))) None]
  /\ getArrayBuffer exampleWindow st
       (params "http://example.com/list.bin") record
     = MkJs [] (inl (TypeError "xhr.getResponseHeader is not a function")).
Proof.
  intros st. split.
  - apply (X17_mock_getArrayBuffer_never_succeeds exampleWindow st
             (params "http://example.com/typed.bin")
             {| protocol := "http:"; hostname := "example.com"; port := "";
                pathname := "/typed.bin"; search := ""; hash := "" |}
             {[ "/typed.bin" := VObject "" (Some 0);
                "/list.bin" := VObject "5" None ]} (VObject "" (Some 0))
             ltac:(vm_compute; reflexivity) ltac:(vm_compute; reflexivity)
             ltac:(vm_compute; reflexivity) eq_refl).
    reflexivity.
  - apply (X17_mock_getArrayBuffer_never_succeeds exampleWindow st
             (params "http://example.com/list.bin")
             {| protocol := "http:"; hostname := "example.com"; port := "";
                pathname := "/list.bin"; search := ""; hash := "" |}
             {[ "/typed.bin" := VObject "" (Some 0);
                "/list.bin" := VObject "5" None ]} (VObject "5" None)
             ltac:(vm_compute; reflexivity) ltac:(vm_compute; reflexivity)
             ltac:(vm_compute; reflexivity) eq_refl).
    discriminate.
Defined.
